(** * Farm stand: the two Express applications over the Product and Farm models

    A shallow embedding of
    - [src/unnamed/part_000]: the products-only application (port 3001),
    - [src/index.js]: the application with farms (port 3000),
    - the cascade hook of the Farm model as listed in [src/README.md].

    Route handlers are [async] functions over the object-document mapper:
    they are written in a state-and-exception monad over the two
    collections.  What the framework does with a handler's outcome (a
    rendered view, a redirect, [next(err)], a rejected promise) is spelled
    out in [Express]. *)

From Stdlib Require Import ZArith String.
From stdpp Require Import base option list strings gmap fin_maps fin_sets infinite.

Local Open Scope Z_scope.
Local Open Scope string_scope.
Local Open Scope list_scope.

(** ** Values produced by the platform

    The handlers pass some texts through untouched: the message of the
    engine's [ReferenceError] and [TypeError], and the message of the
    mapper's [ValidationError].  They are not fixed by the repository, so the
    development is parametric in them. *)

Class Runtime := {
(** message of the [ReferenceError] raised by reading an unbound identifier *)
referenceErrorMessage : string → string;
(** message of the [TypeError] raised by reading a property of [null] *)
nullPropertyMessage : string → string;
(** message of a [ValidationError] of a model, given the failing paths *)
validationMessage : string → list string → string
}.

(** The texts of V8 (Node.js 14) and of Mongoose 5. *)
Definition node_runtime : Runtime := {|
  referenceErrorMessage x := x +:+ " is not defined";
  nullPropertyMessage p := "Cannot read property '" +:+ p +:+ "' of null";
  validationMessage model paths :=
    model +:+ " validation failed: " +:+
    String.concat ", " ((λ p, p +:+ ": Path `" +:+ p +:+ "` is invalid.") <$> paths)
|}.

(** ** Error objects

    Of an error object the middleware reads [name], [status] and [message];
    a field that is [undefined] is [None]. *)

Record JsError := {
  err_name : string;
  err_status : option Z;
  err_message : option string
}.

Global Instance JsError_eq_dec : EqDecision JsError.
Proof. solve_decision. Defined.

Section RuntimeErrors.
Context {R : Runtime}.

Definition ReferenceError (ident : string) : JsError :=
  {| err_name := "ReferenceError"; err_status := None;
     err_message := Some (referenceErrorMessage ident) |}.

Definition TypeError_null (prop : string) : JsError :=
  {| err_name := "TypeError"; err_status := None;
     err_message := Some (nullPropertyMessage prop) |}.

Definition ValidationError (model : string) (paths : list string) : JsError :=
  {| err_name := "ValidationError"; err_status := None;
     err_message := Some (validationMessage model paths) |}.
End RuntimeErrors.

(** ** Documents *)

(** Identifiers are the ObjectIds in the form in which they occur in a URL.
    Only well-formed identifiers are modelled (the mapper's cast of a route
    parameter to an ObjectId is taken to succeed). *)
Abbreviation ObjectId := string.

(** [req.body] of the product forms, and the update document of PUT: a field
    that is absent is [None]; [price] is taken after the cast to a number (no
    handler computes with it). *)
Record Fields := {
  name : option string;
  price : option Z;
  category : option string
}.

Record Product := {
  p_name : option string;
  p_price : option Z;
  p_category : option string;
  p_farm : option ObjectId
}.

Record Farm := {
  f_name : option string;
  f_city : option string;
  f_email : option string;
  f_products : list ObjectId
}.

Global Instance Fields_eq_dec : EqDecision Fields.
Proof. solve_decision. Defined.
Global Instance Product_eq_dec : EqDecision Product.
Proof. solve_decision. Defined.
Global Instance Farm_eq_dec : EqDecision Farm.
Proof. solve_decision. Defined.

(** A document in memory: its [_id] and its fields. *)
Abbreviation Doc A := (ObjectId * A)%type.

(** ** The database and the calls made on it *)

Inductive OdmCall :=
| ProductFind (filter : option string)
| ProductFindById (id : ObjectId)
| ProductSave (id : ObjectId)
| ProductFindByIdAndUpdate (id : ObjectId) (update : Fields)
| ProductFindByIdAndDelete (id : ObjectId)
| ProductDeleteMany (ids : list ObjectId)
| FarmFindById (id : ObjectId)
| FarmSave (id : ObjectId)
| FarmFindByIdAndDelete (id : ObjectId).

Global Instance OdmCall_eq_dec : EqDecision OdmCall.
Proof. solve_decision. Defined.

(** The world of a request: both collections, and the queries issued so far
    (oldest first). *)
Record World := {
  productColl : gmap string Product;
  farmColl : gmap string Farm;
  odmLog : list OdmCall
}.

Definition logged (c : OdmCall) (w : World) : World :=
  {| productColl := productColl w; farmColl := farmColl w;
     odmLog := odmLog w ++ [c] |}.

Definition withProducts (m : gmap string Product) (w : World) : World :=
  {| productColl := m; farmColl := farmColl w; odmLog := odmLog w |}.

Definition withFarms (m : gmap string Farm) (w : World) : World :=
  {| productColl := productColl w; farmColl := m; odmLog := odmLog w |}.

(** ** Asynchronous computations

    An awaited computation runs on the world and either returns or throws
    (its promise is rejected).  Writes made before a throw stay: there are no
    transactions. *)

Inductive Completion (A : Type) :=
| Return (a : A)
| Throw (e : JsError).
Arguments Return {A} a.
Arguments Throw {A} e.

Definition Async (A : Type) : Type := World → World * Completion A.

Global Instance Async_ret : MRet Async := λ A a w, (w, Return a).

Global Instance Async_bind : MBind Async := λ A B k m w,
  match m w with
  | (w', Return a) => k a w'
  | (w', Throw e) => (w', Throw e)
  end.

Global Instance Completion_ret : MRet Completion := λ A a, Return a.

Global Instance Completion_bind : MBind Completion := λ A B k c,
  match c with
  | Return a => k a
  | Throw e => Throw e
  end.

Definition throw {A} (e : JsError) : Async A := λ w, (w, Throw e).
Definition complete {A} (c : Completion A) : Async A := λ w, (w, c).
Definition getWorld : Async World := λ w, (w, Return w).
Definition modifyWorld (f : World → World) : Async unit := λ w, (f w, Return tt).
Definition query (c : OdmCall) : Async unit := modifyWorld (logged c).

(** JavaScript truthiness of the values that the handlers test. *)
Definition truthy_string (s : option string) : bool :=
  match s with
  | Some s => negb (String.eqb s "")
  | None => false
  end.

Definition truthy_length {A} (l : list A) : bool := negb (Nat.eqb (length l) 0).

(** ** The models

    [models/product.js] and [models/farm.js] are not part of the sources at
    hand; the schemas are the ones of the specification's data model. *)

Definition categories : list string := ["fruit"; "vegetables"; "dairy"].

(** The mapper's [required] check of a string path: present and not empty. *)
Definition required_string (path : string) (v : option string) : list string :=
  match v with
  | Some s => if String.eqb s "" then [path] else []
  | None => [path]
  end.

Definition required_number (path : string) (v : option Z) : list string :=
  match v with
  | Some _ => []
  | None => [path]
  end.

Definition enum_string (path : string) (allowed : list string) (v : option string)
    : list string :=
  match v with
  | Some s => if bool_decide (s ∈ allowed) then [] else [path]
  | None => []
  end.

(** Modelled from the spec: the Product schema ([models/product.js] is
    missing).  "name: string, required.  price: number, required.  category:
    one of a fixed closed set {fruit, vegetables, dairy}."  The result lists
    the paths that fail. *)
Definition productSchema (p : Product) : list string :=
  required_string "name" (p_name p) ++
  required_number "price" (p_price p) ++
  enum_string "category" categories (p_category p).

(** Modelled from the spec: the same schema as the update validators of
    [runValidators: true] see it, which check the paths that the update sets
    and no others. *)
Definition productUpdateSchema (u : Fields) : list string :=
  match name u with Some _ => required_string "name" (name u) | None => [] end ++
  enum_string "category" categories (category u).

(** Modelled from the spec: the Farm schema ([models/farm.js] is missing).
    "name, city, email: strings, required." *)
Definition farmSchema (f : Farm) : list string :=
  required_string "name" (f_name f) ++
  required_string "city" (f_city f) ++
  required_string "email" (f_email f).

(** [req.body] of the farm form (POST /farms): name, city and email. *)
Record FarmFields := {
  farm_name : option string;
  farm_city : option string;
  farm_email : option string
}.

(** [new Farm(req.body)]: an array path starts out empty. *)
Definition farmOfFields (b : FarmFields) : Farm :=
  {| f_name := farm_name b; f_city := farm_city b; f_email := farm_email b;
     f_products := [] |}.

(** [new Product({name, price, category})] and the [$set] of an update. *)
Definition productOfFields (b : Fields) : Product :=
  {| p_name := name b; p_price := price b; p_category := category b;
     p_farm := None |}.

Definition setFields (u : Fields) (p : Product) : Product :=
  {| p_name := if name u is Some _ then name u else p_name p;
     p_price := if price u is Some _ then price u else p_price p;
     p_category := if category u is Some _ then category u else p_category p;
     p_farm := p_farm p |}.

(** Every identifier that occurs in the database, as a key or as a
    reference. *)
Definition usedIds (w : World) : gset string :=
  dom (productColl w) ∪ dom (farmColl w) ∪
  list_to_set (omap (p_farm ∘ snd) (map_to_list (productColl w))) ∪
  list_to_set (mjoin ((f_products ∘ snd) <$> map_to_list (farmColl w))).

(** The [_id] that a document constructor assigns: an ObjectId not in use. *)
Definition newObjectId (w : World) : ObjectId := fresh (usedIds w).

Section Odm.
Context {R : Runtime}.

(** [Product.find({})] is [Product_find None]; [Product.find({ category })]
    is [Product_find (Some category)]. *)
Definition Product_find (cond : option string) : Async (list (Doc Product)) :=
  query (ProductFind cond);;
  w ← getWorld;
  mret (match cond with
        | None => map_to_list (productColl w)
        | Some c =>
            filter (λ d : Doc Product, p_category d.2 = Some c)
                   (map_to_list (productColl w))
        end).

Definition Product_findById (id : ObjectId) : Async (option (Doc Product)) :=
  query (ProductFindById id);;
  w ← getWorld;
  mret ((λ p, (id, p)) <$> productColl w !! id).

Definition Product_new (b : Fields) : Async (Doc Product) :=
  w ← getWorld;
  mret (newObjectId w, productOfFields b).

(** [doc.save()]: validation, then the write. *)
Definition Product_save (d : Doc Product) : Async unit :=
  query (ProductSave d.1);;
  match productSchema d.2 with
  | [] => modifyWorld (λ w, withProducts (<[d.1 := d.2]> (productColl w)) w)
  | paths => throw (ValidationError "Product" paths)
  end.

(** [Product.findByIdAndUpdate(id, update, { runValidators: true, new: true })]:
    the validators run before the query; the result is the updated document,
    or [null]. *)
Definition Product_findByIdAndUpdate (id : ObjectId) (u : Fields)
    : Async (option (Doc Product)) :=
  query (ProductFindByIdAndUpdate id u);;
  match productUpdateSchema u with
  | [] =>
      w ← getWorld;
      match productColl w !! id with
      | Some p =>
          modifyWorld (withProducts (<[id := setFields u p]> (productColl w)));;
          mret (Some (id, setFields u p))
      | None => mret None
      end
  | paths => throw (ValidationError "Validation" paths)
  end.

Definition Product_findByIdAndDelete (id : ObjectId) : Async (option (Doc Product)) :=
  query (ProductFindByIdAndDelete id);;
  w ← getWorld;
  modifyWorld (withProducts (delete id (productColl w)));;
  mret ((λ p, (id, p)) <$> productColl w !! id).

(** [Product.deleteMany({ _id: { $in: ids } })] *)
Definition Product_deleteMany (ids : list ObjectId) : Async unit :=
  query (ProductDeleteMany ids);;
  modifyWorld (λ w,
    withProducts (filter (λ kv : string * Product, kv.1 ∉ ids) (productColl w)) w).

Definition Farm_findById (id : ObjectId) : Async (option (Doc Farm)) :=
  query (FarmFindById id);;
  w ← getWorld;
  mret ((λ f, (id, f)) <$> farmColl w !! id).

(** [Product.findById(id).populate('farm', 'name')]: when the product is
    found and has an owning farm, a second query resolves it, and the farm is
    replaced by its [_id] and [name], or by [null] when it does not resolve. *)
Definition Product_findById_populate_farm (id : ObjectId)
    : Async (option (Doc Product * option (Doc (option string)))) :=
  product ← Product_findById id;
  match product with
  | None => mret None
  | Some product =>
      match p_farm product.2 with
      | None => mret (Some (product, None))
      | Some fid =>
          farm ← Farm_findById fid;
          mret (Some (product, (λ f : Doc Farm, (f.1, f_name f.2)) <$> farm))
      end
  end.

Definition Farm_save (d : Doc Farm) : Async unit :=
  query (FarmSave d.1);;
  match farmSchema d.2 with
  | [] => modifyWorld (λ w, withFarms (<[d.1 := d.2]> (farmColl w)) w)
  | paths => throw (ValidationError "Farm" paths)
  end.

(** The cascade hook (README.md, lines 104-109):
<<
    farmSchema.post('findOneAndDelete', async function (farm) {
        if (farm.products.length){
            const res = await Product.deleteMany({_id: {$in: farm.products}})
            console.log(res);
        }
    });
>>
    The hook receives the result of the query, which is [null] when no farm
    has the identifier. *)
Definition post_findOneAndDelete (farm : option (Doc Farm)) : Async unit :=
  match farm with
  | None => throw (TypeError_null "products")
  | Some farm =>
      if truthy_length (f_products farm.2)
      then Product_deleteMany (f_products farm.2)
      else mret tt
  end.

(** [Farm.findByIdAndDelete(id)]: the query [findOneAndDelete], then its
    post hooks, awaited. *)
Definition Farm_findByIdAndDelete (id : ObjectId) : Async (option (Doc Farm)) :=
  query (FarmFindByIdAndDelete id);;
  w ← getWorld;
  modifyWorld (withFarms (delete id (farmColl w)));;
  let farm := (λ f, (id, f)) <$> farmColl w !! id in
  post_findOneAndDelete farm;;
  mret farm.

Definition Farm_new (b : FarmFields) : Async (Doc Farm) :=
  w ← getWorld;
  mret (newObjectId w, farmOfFields b).
End Odm.

(** ** The framework *)

(** The locals handed to a view. *)
Inductive Locals :=
| IndexLocals (products : list (Doc Product)) (category : string)
| NewLocals (categories : list string)
| DetailsLocals (product : Doc Product)
| DetailsPopulatedLocals (product : option (Doc Product * option (Doc (option string))))
| EditLocals (product : Doc Product) (categories : list string).

(** What a route handler does with [res] and [next]. *)
Inductive Reply :=
| Render (view : string) (locals : Locals)
| Redirect (url : string)
| Next (err : JsError).

(** What the client gets.  [ResFinal] is the framework's own error page, for
    an error that no error middleware answered; [ResNone] is the rejected
    promise of a handler that nothing catches: no response is written. *)
Inductive Response :=
| ResRender (view : string) (locals : Locals)
| ResRedirect (url : string)
| ResSend (status : Z) (body : string)
| ResFinal (err : JsError)
| ResNone (rejection : JsError).

Module Express.

(** An error-handling middleware [(err, req, res, next) => ...] either calls
    [next(err')], or writes the response [res.status(s).send(b)], or
    throws. *)
Inductive ErrorAction :=
| ErrNext (err : JsError)
| ErrSend (status : Z) (body : string).

Definition ErrorMiddleware : Type := JsError → Completion ErrorAction.

(** The error middlewares run in the order of their [app.use].  An exception
    thrown by one of them is caught by the framework and handed to the next
    one in place of the error. *)
Fixpoint handle_error (stack : list ErrorMiddleware) (err : JsError) : Response :=
  match stack with
  | [] => ResFinal err
  | mw :: stack =>
      match mw err with
      | Return (ErrNext err') => handle_error stack err'
      | Return (ErrSend status body) => ResSend status body
      | Throw err' => handle_error stack err'
      end
  end.

(** A request on a route: the handler runs; [next(err)] enters the error
    middlewares.  The framework does not look at the promise that an [async]
    handler returns. *)
Definition handle (stack : list ErrorMiddleware) (handler : Async Reply)
    (w : World) : World * Response :=
  match handler w with
  | (w', Return (Render view locals)) => (w', ResRender view locals)
  | (w', Return (Redirect url)) => (w', ResRedirect url)
  | (w', Return (Next err)) => (w', handle_error stack err)
  | (w', Throw err) => (w', ResNone err)
  end.

End Express.

(** [`${v}`] of a value that may be [undefined]. *)
Definition template (v : option string) : string := default "undefined" v.

(** ** The products-only application ([src/unnamed/part_000]) *)

Module ProductsApp.
Section App.
Context {R : Runtime}.

(** Modelled from the spec: the class [AppError] ([AppError.js] is missing),
    "a generic application error" carrying the message and the HTTP status
    that it is constructed with.  It does not set a [name] of its own. *)
Definition AppError (message : string) (status : Z) : JsError :=
  {| err_name := "Error"; err_status := Some status;
     err_message := Some message |}.

(** [new AppError(message, status)]; [AppError] is bound by the [require]
    of line 6. *)
Definition new_AppError (message : string) (status : Z) : Completion JsError :=
  Return (AppError message status).

Definition wrapAsync (fn : Async Reply) : Async Reply := λ w,
  match fn w with
  | (w', Return reply) => (w', Return reply)
  | (w', Throw e) => (w', Return (Next e))
  end.

(** In the first branch [category] is a string that is not empty. *)
Definition get_products (category : option string) : Async Reply :=
  if truthy_string category then
    products ← Product_find category;
    mret (Render "products/index" (IndexLocals products (default "" category)))
  else
    products ← Product_find None;
    mret (Render "products/index" (IndexLocals products "All")).


(** The guard [if (!newProduct)] tests an object and never fires.  The body
    is the one the product form sends, its three fields; a request body with
    further keys ([_id], [farm]) is outside the model. *)
Definition post_products (body : Fields) : Async Reply :=
  newProduct ← Product_new body;
  Product_save newProduct;;
  mret (Redirect ("/products/" +:+ newProduct.1)).

Definition get_product (id : ObjectId) : Async Reply :=
  product ← Product_findById id;
  match product with
  | None =>
      err ← complete (new_AppError "Product not found" 404);
      mret (Next err)
  | Some product => mret (Render "products/details" (DetailsLocals product))
  end.

Definition get_product_edit (id : ObjectId) : Async Reply :=
  product ← Product_findById id;
  match product with
  | None =>
      err ← complete (new_AppError "Product not found" 404);
      mret (Next err)
  | Some product =>
      mret (Render "products/edit" (EditLocals product categories))
  end.

Definition put_product (id : ObjectId) (body : Fields) : Async Reply :=
  product ← Product_findByIdAndUpdate id body;
  match product with
  | None =>
      err ← complete (new_AppError "Product not found" 404);
      mret (Next err)
  | Some product => mret (Redirect ("/products/" +:+ product.1))
  end.

Definition delete_product (id : ObjectId) : Async Reply :=
  deletedProduct ← Product_findByIdAndDelete id;
  match deletedProduct with
  | None =>
      err ← complete (new_AppError "Product not found" 404);
      mret (Next err)
  | Some _ => mret (Redirect "/products")
  end.

Definition handleValidationErr (err : JsError) : Completion JsError :=
  new_AppError ("Validation failed... " +:+ template (err_message err)) 400.

(** [app.use((err, res, req, next) => ...)], lines 103-107. *)
Definition validationMiddleware : Express.ErrorMiddleware := λ err,
  err ← (if String.eqb (err_name err) "ValidationError"
         then handleValidationErr err else Return err);
  Return (Express.ErrNext err).

(** [app.use((err, req, res, next) => ...)], lines 109-112: a destructuring
    default applies when the property is [undefined]. *)
Definition terminalMiddleware : Express.ErrorMiddleware := λ err,
  let status := default 500 (err_status err) in
  let message := default "Something went wrong" (err_message err) in
  Return (Express.ErrSend status message).

Definition errorMiddlewares : list Express.ErrorMiddleware :=
  [validationMiddleware; terminalMiddleware].

(** The routes, as [app.get], [app.post], [app.put] and [app.delete]
    register them. *)
Definition GET_products (category : option string) :=
  Express.handle errorMiddlewares (get_products category).
Definition POST_products (body : Fields) :=
  Express.handle errorMiddlewares (wrapAsync (post_products body)).
Definition GET_product (id : ObjectId) :=
  Express.handle errorMiddlewares (wrapAsync (get_product id)).
Definition GET_product_edit (id : ObjectId) :=
  Express.handle errorMiddlewares (wrapAsync (get_product_edit id)).
Definition PUT_product (id : ObjectId) (body : Fields) :=
  Express.handle errorMiddlewares (wrapAsync (put_product id body)).
Definition DELETE_product (id : ObjectId) :=
  Express.handle errorMiddlewares (wrapAsync (delete_product id)).
End App.
End ProductsApp.

(** ** The application with farms ([src/index.js]) *)

Module FarmApp.
Section App.
Context {R : Runtime}.

(** [new AppError(message, status)]: the file neither requires nor declares
    [AppError], so that evaluating the identifier throws. *)
Definition new_AppError (message : string) (status : Z) : Completion JsError :=
  Throw (ReferenceError "AppError").

Definition wrapAsync (fn : Async Reply) : Async Reply := λ w,
  match fn w with
  | (w', Return reply) => (w', Return reply)
  | (w', Throw e) => (w', Return (Next e))
  end.

(** [farm.products.push(product)] and [product.farm = farm] store the
    [_id] of the document, the paths being references. *)
Definition post_farm_products (id : ObjectId) (body : Fields) : Async Reply :=
  farm ← Farm_findById id;
  product ← Product_new body;
  match farm with
  | None => throw (TypeError_null "products")
  | Some farm =>
      let farm' : Doc Farm :=
        (farm.1, {| f_name := f_name farm.2; f_city := f_city farm.2;
                    f_email := f_email farm.2;
                    f_products := f_products farm.2 ++ [product.1] |}) in
      let product' : Doc Product :=
        (product.1, {| p_name := p_name product.2; p_price := p_price product.2;
                       p_category := p_category product.2;
                       p_farm := Some farm.1 |}) in
      Farm_save farm';;
      Product_save product';;
      mret (Redirect ("/farms/" +:+ id))
  end.

Definition delete_farm (id : ObjectId) : Async Reply :=
  farm ← Farm_findByIdAndDelete id;
  mret (Redirect "/farms").

Definition get_products (category : option string) : Async Reply :=
  if truthy_string category then
    products ← Product_find category;
    mret (Render "products/index" (IndexLocals products (default "" category)))
  else
    products ← Product_find None;
    mret (Render "products/index" (IndexLocals products "All")).

Definition get_product (id : ObjectId) : Async Reply :=
  product ← Product_findById_populate_farm id;
  mret (Render "products/details" (DetailsPopulatedLocals product)).

Definition get_product_edit (id : ObjectId) : Async Reply :=
  product ← Product_findById id;
  match product with
  | None =>
      err ← complete (new_AppError "Product not found" 404);
      mret (Next err)
  | Some product =>
      mret (Render "products/edit" (EditLocals product categories))
  end.

Definition put_product (id : ObjectId) (body : Fields) : Async Reply :=
  product ← Product_findByIdAndUpdate id body;
  match product with
  | None =>
      err ← complete (new_AppError "Product not found" 404);
      mret (Next err)
  | Some product => mret (Redirect ("/products/" +:+ product.1))
  end.

Definition delete_product (id : ObjectId) : Async Reply :=
  deletedProduct ← Product_findByIdAndDelete id;
  match deletedProduct with
  | None =>
      err ← complete (new_AppError "Product not found" 404);
      mret (Next err)
  | Some _ => mret (Redirect "/products")
  end.

Definition handleValidationErr (err : JsError) : Completion JsError :=
  new_AppError ("Validation failed... " +:+ template (err_message err)) 400.

(** [app.use((err, res, req, next) => ...)], lines 144-148. *)
Definition validationMiddleware : Express.ErrorMiddleware := λ err,
  err ← (if String.eqb (err_name err) "ValidationError"
         then handleValidationErr err else Return err);
  Return (Express.ErrNext err).

(** [app.use((err, req, res, next) => ...)], lines 150-153. *)
Definition terminalMiddleware : Express.ErrorMiddleware := λ err,
  let status := default 500 (err_status err) in
  let message := default "Something went wrong" (err_message err) in
  Return (Express.ErrSend status message).

Definition errorMiddlewares : list Express.ErrorMiddleware :=
  [validationMiddleware; terminalMiddleware].

(** The routes of the claims; [GET /products/new] and [POST /products] are
    commented out in this file. *)
Definition POST_farm_products (id : ObjectId) (body : Fields) :=
  Express.handle errorMiddlewares (wrapAsync (post_farm_products id body)).
Definition DELETE_farm (id : ObjectId) :=
  Express.handle errorMiddlewares (delete_farm id).
Definition GET_products (category : option string) :=
  Express.handle errorMiddlewares (get_products category).
Definition GET_product (id : ObjectId) :=
  Express.handle errorMiddlewares (wrapAsync (get_product id)).
Definition GET_product_edit (id : ObjectId) :=
  Express.handle errorMiddlewares (wrapAsync (get_product_edit id)).
Definition PUT_product (id : ObjectId) (body : Fields) :=
  Express.handle errorMiddlewares (wrapAsync (put_product id body)).
Definition DELETE_product (id : ObjectId) :=
  Express.handle errorMiddlewares (wrapAsync (delete_product id)).

(** [app.post('/farms', async (req, res) => ...)], lines 49-53: the handler
    is not wrapped.  The body is the one the farm form sends, its three
    fields; a request body with further keys ([_id], [products]) is outside
    the model. *)
Definition post_farms (body : FarmFields) : Async Reply :=
  farm ← Farm_new body;
  Farm_save farm;;
  mret (Redirect "/farms").

Definition POST_farms (body : FarmFields) :=
  Express.handle errorMiddlewares (post_farms body).
End App.
End FarmApp.

(** ** Sample data *)

Definition apple_id : ObjectId := "6112fe023f3df792b5f70a01".
Definition milk_id : ObjectId := "6112fe023f3df792b5f70a02".
Definition orchard_id : ObjectId := "6112fe023f3df792b5f72351".
Definition meadow_id : ObjectId := "6112fe023f3df792b5f72352".

(** Identifiers of no document of [stand]. *)
Definition no_product_id : ObjectId := "6112fe023f3df792b5f70a09".
Definition no_farm_id : ObjectId := "6112fe023f3df792b5f72359".

Definition apple : Product :=
  {| p_name := Some "apple"; p_price := Some 2; p_category := Some "fruit";
     p_farm := Some orchard_id |}.

Definition milk : Product :=
  {| p_name := Some "milk"; p_price := Some 1; p_category := Some "dairy";
     p_farm := None |}.

Definition orchard : Farm :=
  {| f_name := Some "Orchard"; f_city := Some "Bern";
     f_email := Some "orchard@example.org"; f_products := [apple_id] |}.

Definition meadow : Farm :=
  {| f_name := Some "Meadow"; f_city := Some "Chur";
     f_email := Some "meadow@example.org"; f_products := [] |}.

Definition stand : World :=
  {| productColl := {[ apple_id := apple; milk_id := milk ]};
     farmColl := {[ orchard_id := orchard; meadow_id := meadow ]};
     odmLog := [] |}.

Definition kiwi : Fields :=
  {| name := Some "kiwi"; price := Some 3; category := Some "fruit" |}.

Definition unnamed : Fields :=
  {| name := None; price := Some 3; category := Some "fruit" |}.

(** An update that sets nothing, and one whose name is empty. *)
Definition no_fields : Fields :=
  {| name := None; price := None; category := None |}.

Definition nameless : Fields :=
  {| name := Some ""; price := Some 3; category := Some "fruit" |}.

Definition no_city : FarmFields :=
  {| farm_name := Some "Grove"; farm_city := None;
     farm_email := Some "grove@example.org" |}.

(** ** Reading a response *)

(** The response renders the product index with the given label and with
    exactly the products of [w] that satisfy [keep], each once, after the one
    query [Product.find(cond)]. *)
Definition lists_exactly (w : World) (cond : option string) (label : string)
    (keep : Product → Prop) (r : World * Response) : Prop :=
  ∃ products : list (Doc Product),
    r = (logged (ProductFind cond) w,
         ResRender "products/index" (IndexLocals products label)) ∧
    NoDup products ∧
    ∀ (id : ObjectId) (p : Product),
      (id, p) ∈ products ↔ productColl w !! id = Some p ∧ keep p.

(** The error middleware [mw] answers [err] with the error's own status and
    message, and with 500 and "Something went wrong" in their absence. *)
Definition answers_with_defaults (mw : Express.ErrorMiddleware) (err : JsError) : Prop :=
  ∃ (status : Z) (body : string),
    mw err = Return (Express.ErrSend status body) ∧
    Express.handle_error [mw] err = ResSend status body ∧
    match err_status err with
    | Some s => status = s
    | None => status = 500
    end ∧
    match err_message err with
    | Some m => body = m
    | None => body = "Something went wrong"
    end.

(** Both collections of [w'] are those of [w]. *)
Definition same_collections (w w' : World) : Prop :=
  productColl w' = productColl w ∧ farmColl w' = farmColl w.

(** * Properties *)

(** Unfolds the monad of a handler down to the world it runs on. *)
Ltac run :=
  unfold mbind, mret, Async_bind, Async_ret, Completion_bind, Completion_ret,
    query, modifyWorld, getWorld, throw, complete; simpl.

(** ** The mapper's operations on a given world *)

Section OdmRuns.
Context {R : Runtime}.

Lemma Product_deleteMany_run ids w :
  Product_deleteMany ids w =
    (withProducts (filter (λ kv : string * Product, kv.1 ∉ ids) (productColl w))
                  (logged (ProductDeleteMany ids) w),
     Return tt).
Proof. reflexivity. Qed.

Lemma Product_deleteMany_gone ids w pid :
  pid ∈ ids → productColl (Product_deleteMany ids w).1 !! pid = None.
Proof.
  intros Hin. rewrite Product_deleteMany_run. simpl.
  apply map_lookup_filter_None. right. intros p _ Hnot. simpl in Hnot. done.
Qed.

Lemma Product_deleteMany_kept ids w pid :
  pid ∉ ids →
  productColl (Product_deleteMany ids w).1 !! pid = productColl w !! pid.
Proof.
  intros Hnot. rewrite Product_deleteMany_run. simpl.
  destruct (productColl w !! pid) as [p|] eqn:Hp.
  - by apply map_lookup_filter_Some.
  - apply map_lookup_filter_None. by left.
Qed.

Lemma Product_findById_run id w :
  Product_findById id w =
    (logged (ProductFindById id) w, Return ((λ p, (id, p)) <$> productColl w !! id)).
Proof. reflexivity. Qed.

Lemma Farm_findByIdAndDelete_found id farm w :
  farmColl w !! id = Some farm →
  Farm_findByIdAndDelete id w =
    (let w1 := withFarms (delete id (farmColl w)) (logged (FarmFindByIdAndDelete id) w) in
     if truthy_length (f_products farm)
     then (Product_deleteMany (f_products farm) w1).1
     else w1,
     Return (Some (id, farm))).
Proof.
  intros Hfarm. unfold Farm_findByIdAndDelete. run. rewrite Hfarm. simpl.
  unfold post_findOneAndDelete. simpl.
  by destruct (truthy_length (f_products farm)).
Qed.

Lemma Farm_findByIdAndDelete_missing id w :
  farmColl w !! id = None →
  Farm_findByIdAndDelete id w =
    (withFarms (delete id (farmColl w)) (logged (FarmFindByIdAndDelete id) w),
     Throw (TypeError_null "products")).
Proof.
  intros Hfarm. unfold Farm_findByIdAndDelete. run. by rewrite Hfarm.
Qed.
End OdmRuns.

(** ** Deleting a farm *)

Section Cascade.
Context {R : Runtime}.

(** C1.  Deleting a farm that exists (DELETE /farms/:id) answers with the
    redirect to the farm list once the post hook has run, the farm is gone,
    and none of the products that its [products] collection referenced can be
    retrieved by identifier any more. *)
Theorem delete_farm_cascades (w : World) (id : ObjectId) (farm : Farm) :
  farmColl w !! id = Some farm →
  ∃ w', FarmApp.DELETE_farm id w = (w', ResRedirect "/farms") ∧
        farmColl w' !! id = None ∧
        ∀ pid, pid ∈ f_products farm →
               productColl w' !! pid = None ∧
               (Product_findById pid w').2 = Return None.
Proof.
  intros Hfarm. eexists. split.
  - unfold FarmApp.DELETE_farm, Express.handle, FarmApp.delete_farm.
    unfold mbind at 1, Async_bind at 1.
    rewrite (Farm_findByIdAndDelete_found id farm w Hfarm). reflexivity.
  - simpl. destruct (truthy_length (f_products farm)) eqn:Hlen.
    + split; [simpl; apply lookup_delete_eq|].
      intros pid Hin.
      pose proof (Product_deleteMany_gone (f_products farm)
        (withFarms (delete id (farmColl w)) (logged (FarmFindByIdAndDelete id) w))
        pid Hin) as Hgone.
      split; [exact Hgone|].
      simpl in Hgone |- *. by rewrite Hgone.
    + split; [simpl; apply lookup_delete_eq|].
      intros pid Hin. exfalso.
      unfold truthy_length in Hlen.
      destruct (f_products farm); [by apply elem_of_nil in Hin | done].
Qed.

(** C7.  Deleting a farm whose [products] collection is empty issues one
    query, the deletion of the farm: no [deleteMany] (nor any other call) is
    made on the product collection, which is left as it was. *)
Theorem delete_farm_without_products (w : World) (id : ObjectId) (farm : Farm) :
  farmColl w !! id = Some farm →
  f_products farm = [] →
  ∃ w', FarmApp.DELETE_farm id w = (w', ResRedirect "/farms") ∧
        productColl w' = productColl w ∧
        odmLog w' = odmLog w ++ [FarmFindByIdAndDelete id] ∧
        ∀ ids, ProductDeleteMany ids ∉ drop (length (odmLog w)) (odmLog w').
Proof.
  intros Hfarm Hnil. eexists. split.
  - unfold FarmApp.DELETE_farm, Express.handle, FarmApp.delete_farm.
    unfold mbind at 1, Async_bind at 1.
    rewrite (Farm_findByIdAndDelete_found id farm w Hfarm). reflexivity.
  - rewrite Hnil. simpl. split; [done|]. split; [done|].
    intros ids. rewrite drop_app_length.
    intros Hin. apply list_elem_of_singleton in Hin. discriminate.
Qed.
End Cascade.

Lemma delete_farm_cascades_witness :
  ∃ w', FarmApp.DELETE_farm (R := node_runtime) orchard_id stand = (w', ResRedirect "/farms") ∧
        farmColl w' !! orchard_id = None ∧
        ∀ pid, pid ∈ f_products orchard →
               productColl w' !! pid = None ∧
               (Product_findById pid w').2 = Return None.
Proof. apply (delete_farm_cascades stand orchard_id orchard). reflexivity. Defined.

Lemma delete_farm_without_products_witness :
  ∃ w', FarmApp.DELETE_farm (R := node_runtime) meadow_id stand = (w', ResRedirect "/farms") ∧
        productColl w' = productColl stand ∧
        odmLog w' = odmLog stand ++ [FarmFindByIdAndDelete meadow_id] ∧
        ∀ ids, ProductDeleteMany ids ∉ drop (length (odmLog stand)) (odmLog w').
Proof.
  apply (delete_farm_without_products stand meadow_id meadow); reflexivity.
Defined.

(** ** Adding a product to a farm *)

Lemma newObjectId_not_product (w : World) : productColl w !! newObjectId w = None.
Proof.
  apply not_elem_of_dom. intros Hin.
  apply (is_fresh (usedIds w)). fold (newObjectId w).
  unfold usedIds. set_solver.
Qed.

Lemma newObjectId_not_farm (w : World) : farmColl w !! newObjectId w = None.
Proof.
  apply not_elem_of_dom. intros Hin.
  apply (is_fresh (usedIds w)). fold (newObjectId w).
  unfold usedIds. set_solver.
Qed.

Section AddProduct.
Context {R : Runtime}.

(** The world after both writes of POST /farms/:id/products. *)
Lemma post_farm_products_found id body farm w :
  farmColl w !! id = Some farm →
  FarmApp.post_farm_products id body w =
    (Farm_save (id, {| f_name := f_name farm; f_city := f_city farm;
                        f_email := f_email farm;
                        f_products := f_products farm ++ [newObjectId w] |});;
     Product_save (newObjectId w,
                   {| p_name := name body; p_price := price body;
                      p_category := category body; p_farm := Some id |});;
     mret (Redirect ("/farms/" +:+ id))) (logged (FarmFindById id) w).
Proof.
  intros Hfarm. unfold FarmApp.post_farm_products, Farm_findById, Product_new.
  run. by rewrite Hfarm.
Qed.

(** C4.  When POST /farms/:id/products on a farm that exists completes (it
    answers with its redirect), the product it created is stored with the
    submitted fields and with the farm's identifier as its [farm], and the
    stored farm lists the identifier of that product in its [products]. *)
Theorem add_product_links_both_sides
    (w w' : World) (id : ObjectId) (farm : Farm) (body : Fields) (url : string) :
  farmColl w !! id = Some farm →
  FarmApp.POST_farm_products id body w = (w', ResRedirect url) →
  productColl w !! newObjectId w = None ∧
  (∃ product, productColl w' !! newObjectId w = Some product ∧
              p_farm product = Some id ∧
              p_name product = name body ∧ p_price product = price body ∧
              p_category product = category body) ∧
  (∃ farm', farmColl w' !! id = Some farm' ∧
            newObjectId w ∈ f_products farm' ∧
            f_products farm' = f_products farm ++ [newObjectId w]).
Proof.
  intros Hfarm Hrun. split; [apply newObjectId_not_product|].
  unfold FarmApp.POST_farm_products, Express.handle, FarmApp.wrapAsync in Hrun.
  rewrite (post_farm_products_found id body farm w Hfarm) in Hrun.
  unfold Farm_save, Product_save in Hrun. revert Hrun. run.
  destruct (farmSchema _) as [|fpath fpaths]; simpl.
  - destruct (productSchema _) as [|ppath ppaths]; simpl.
    + intros [= <- _]. simpl. split.
      * eexists. split; [apply lookup_insert_eq|]. done.
      * eexists. split; [apply lookup_insert_eq|]. simpl.
        split; [|done]. apply elem_of_app. right. apply list_elem_of_singleton. done.
    + unfold Express.handle_error, FarmApp.errorMiddlewares,
        FarmApp.validationMiddleware, FarmApp.terminalMiddleware. simpl.
      intros [= _ ?].
  - unfold Express.handle_error, FarmApp.errorMiddlewares,
      FarmApp.validationMiddleware, FarmApp.terminalMiddleware. simpl.
    intros [= _ ?].
Qed.

(** The request does complete when the stored farm and the submitted fields
    satisfy their schemas. *)
Lemma add_product_completes (w : World) (id : ObjectId) (farm : Farm) (body : Fields) :
  farmColl w !! id = Some farm →
  farmSchema farm = [] →
  productSchema (productOfFields body) = [] →
  ∃ w', FarmApp.POST_farm_products id body w = (w', ResRedirect ("/farms/" +:+ id)).
Proof.
  intros Hfarm Hf Hp.
  unfold FarmApp.POST_farm_products, Express.handle, FarmApp.wrapAsync.
  rewrite (post_farm_products_found id body farm w Hfarm).
  unfold Farm_save, Product_save. run.
  change (farmSchema _) with (farmSchema farm). rewrite Hf. simpl.
  change (productSchema _) with (productSchema (productOfFields body)).
  rewrite Hp. simpl. eauto.
Qed.

(** The two writes are not atomic: when the fields fail the Product schema
    the farm has already been saved with the reference, and no product is
    stored for it. *)
Lemma add_product_invalid_fields (w : World) (id : ObjectId) (farm : Farm) (body : Fields) :
  farmColl w !! id = Some farm →
  farmSchema farm = [] →
  productSchema (productOfFields body) ≠ [] →
  ∃ w', FarmApp.POST_farm_products id body w =
          (w', ResSend 500 (referenceErrorMessage "AppError")) ∧
        productColl w' !! newObjectId w = None ∧
        ∃ farm', farmColl w' !! id = Some farm' ∧
                 f_products farm' = f_products farm ++ [newObjectId w].
Proof.
  intros Hfarm Hf Hp.
  unfold FarmApp.POST_farm_products, Express.handle, FarmApp.wrapAsync.
  rewrite (post_farm_products_found id body farm w Hfarm).
  unfold Farm_save, Product_save. run.
  change (farmSchema _) with (farmSchema farm). rewrite Hf. simpl.
  change (productSchema _) with (productSchema (productOfFields body)).
  destruct (productSchema (productOfFields body)) as [|path paths]; [done|].
  simpl. eexists. split; [reflexivity|]. simpl.
  split; [apply newObjectId_not_product|].
  eexists. split; [apply lookup_insert_eq|]. done.
Qed.
End AddProduct.

Lemma add_product_links_both_sides_witness :
  let w' := (FarmApp.POST_farm_products (R := node_runtime) orchard_id kiwi stand).1 in
  productColl stand !! newObjectId stand = None ∧
  (∃ product, productColl w' !! newObjectId stand = Some product ∧
              p_farm product = Some orchard_id ∧
              p_name product = name kiwi ∧ p_price product = price kiwi ∧
              p_category product = category kiwi) ∧
  (∃ farm', farmColl w' !! orchard_id = Some farm' ∧
            newObjectId stand ∈ f_products farm' ∧
            f_products farm' = f_products orchard ++ [newObjectId stand]).
Proof.
  apply (add_product_links_both_sides (R := node_runtime) stand _ orchard_id orchard kiwi ("/farms/" +:+ orchard_id)).
  - reflexivity.
  - vm_compute. reflexivity.
Defined.

(** ** Listing products *)

Lemma Product_find_all (w : World) :
  Product_find None w =
    (logged (ProductFind None) w, Return (map_to_list (productColl w))).
Proof. reflexivity. Qed.

Lemma Product_find_category (c : string) (w : World) :
  Product_find (Some c) w =
    (logged (ProductFind (Some c)) w,
     Return (filter (λ d : Doc Product, p_category d.2 = Some c)
                    (map_to_list (productColl w)))).
Proof. reflexivity. Qed.

Lemma find_all_complete (w : World) (id : ObjectId) (p : Product) :
  (id, p) ∈ map_to_list (productColl w) ↔ productColl w !! id = Some p.
Proof. apply elem_of_map_to_list. Qed.

Lemma find_category_exact (c : string) (w : World) (id : ObjectId) (p : Product) :
  (id, p) ∈ filter (λ d : Doc Product, p_category d.2 = Some c)
                   (map_to_list (productColl w))
  ↔ productColl w !! id = Some p ∧ p_category p = Some c.
Proof.
  rewrite list_elem_of_filter, elem_of_map_to_list. simpl. tauto.
Qed.

(** C5.  GET /products, in both applications: without a category argument
    the view gets every product of the collection and the label "All"; with
    category=dairy it gets exactly the products whose category is "dairy". *)
Theorem list_products_by_category {R : Runtime} (w : World) :
  let is_dairy (p : Product) := p_category p = Some "dairy" in
  lists_exactly w None "All" (λ _, True) (ProductsApp.GET_products None w) ∧
  lists_exactly w (Some "dairy") "dairy" is_dairy
    (ProductsApp.GET_products (Some "dairy") w) ∧
  lists_exactly w None "All" (λ _, True) (FarmApp.GET_products None w) ∧
  lists_exactly w (Some "dairy") "dairy" is_dairy
    (FarmApp.GET_products (Some "dairy") w).
Proof.
  assert (Hall : lists_exactly w None "All" (λ _, True)
    (logged (ProductFind None) w,
     ResRender "products/index" (IndexLocals (map_to_list (productColl w)) "All"))).
  { eexists. split; [reflexivity|]. split; [apply NoDup_map_to_list|].
    intros id p. rewrite find_all_complete. tauto. }
  assert (Hdairy : lists_exactly w (Some "dairy") "dairy"
    (λ p, p_category p = Some "dairy")
    (logged (ProductFind (Some "dairy")) w,
     ResRender "products/index"
       (IndexLocals (filter (λ d : Doc Product, p_category d.2 = Some "dairy")
                            (map_to_list (productColl w))) "dairy"))).
  { eexists. split; [reflexivity|].
    split; [apply NoDup_filter, NoDup_map_to_list|].
    apply find_category_exact. }
  intros is_dairy.
  split; [exact Hall | split; [exact Hdairy | split; [exact Hall | exact Hdairy]]].
Qed.

(** An empty [category] argument is falsy and lists everything as well. *)
Lemma list_products_empty_category {R : Runtime} (w : World) :
  ProductsApp.GET_products (Some "") w = ProductsApp.GET_products None w ∧
  FarmApp.GET_products (Some "") w = FarmApp.GET_products None w.
Proof. split; reflexivity. Qed.

(** ** The error middlewares *)

(** C8.  In both applications the terminal error middleware answers every
    error with the error's [status], or 500 when it has none, and with the
    error's [message] alone as the body, or "Something went wrong" when it
    has none. *)
Theorem terminal_middleware_response (err : JsError) :
  answers_with_defaults ProductsApp.terminalMiddleware err ∧
  answers_with_defaults FarmApp.terminalMiddleware err.
Proof.
  split; eexists _, _; (split; [reflexivity|]); (split; [reflexivity|]);
    destruct err as [n [s|] [m|]]; simpl; done.
Qed.

Section Validation.
Context {R : Runtime}.

(** A validation error is rewrapped by the products-only application. *)
Lemma validation_error_rewrapped (model : string) (paths : list string) :
  Express.handle_error ProductsApp.errorMiddlewares (ValidationError model paths) =
    ResSend 400 ("Validation failed... " +:+ validationMessage model paths).
Proof. reflexivity. Qed.

(** An application error passes the first middleware as it is. *)
Lemma app_error_response (message : string) (status : Z) :
  Express.handle_error ProductsApp.errorMiddlewares
    (ProductsApp.AppError message status) = ResSend status message.
Proof. reflexivity. Qed.

Lemma missing_field_fails (body : Fields) :
  name body = None ∨ price body = None →
  productSchema (productOfFields body) ≠ [].
Proof.
  unfold productSchema, productOfFields. simpl.
  intros [-> | ->]; simpl.
  - done.
  - destruct (required_string "name" (name body)); done.
Qed.

(** C2.  POST /products with a body that lacks a required field ([name] or
    [price]) is answered with status 400 and the body "Validation failed... "
    followed by the message of the validation error, which therefore starts
    with "Validation failed..."; nothing is stored. *)
Theorem create_product_missing_field (w : World) (body : Fields) :
  name body = None ∨ price body = None →
  ∃ w' text,
    ProductsApp.POST_products body w = (w', ResSend 400 text) ∧
    text = "Validation failed... " +:+
           validationMessage "Product" (productSchema (productOfFields body)) ∧
    String.prefix "Validation failed..." text = true ∧
    productColl w' = productColl w.
Proof.
  intros Hmissing. apply missing_field_fails in Hmissing.
  unfold ProductsApp.POST_products, Express.handle, ProductsApp.wrapAsync,
    ProductsApp.post_products, Product_new, Product_save.
  run. change (productSchema _) with (productSchema (productOfFields body)).
  destruct (productSchema (productOfFields body)) as [|path paths] eqn:Hpaths;
    [done|]. simpl.
  eexists _, _. split; [reflexivity|]. split; [reflexivity|]. split; reflexivity.
Qed.
End Validation.

Lemma create_product_missing_field_witness :
  ∃ w' text,
    ProductsApp.POST_products (R := node_runtime) unnamed stand = (w', ResSend 400 text) ∧
    text = "Validation failed... " +:+
           validationMessage (Runtime := node_runtime) "Product"
             (productSchema (productOfFields unnamed)) ∧
    String.prefix "Validation failed..." text = true ∧
    productColl w' = productColl stand.
Proof.
  apply (create_product_missing_field (R := node_runtime) stand unnamed).
  left. reflexivity.
Defined.

(** ** Requests for a product that does not exist *)

Section NotFound.
Context {R : Runtime}.

Lemma Product_findByIdAndUpdate_missing id body w :
  productUpdateSchema body = [] →
  productColl w !! id = None →
  Product_findByIdAndUpdate id body w =
    (logged (ProductFindByIdAndUpdate id body) w, Return None).
Proof.
  intros Hvalid Hmissing. unfold Product_findByIdAndUpdate. run.
  rewrite Hvalid. simpl. by rewrite Hmissing.
Qed.

Lemma Product_findByIdAndUpdate_found id body p w :
  productUpdateSchema body = [] →
  productColl w !! id = Some p →
  Product_findByIdAndUpdate id body w =
    (withProducts (<[id := setFields body p]> (productColl w))
                  (logged (ProductFindByIdAndUpdate id body) w),
     Return (Some (id, setFields body p))).
Proof.
  intros Hvalid Hfound. unfold Product_findByIdAndUpdate. run.
  rewrite Hvalid. simpl. by rewrite Hfound.
Qed.

Lemma Product_findByIdAndUpdate_invalid id body w :
  productUpdateSchema body ≠ [] →
  Product_findByIdAndUpdate id body w =
    (logged (ProductFindByIdAndUpdate id body) w,
     Throw (ValidationError "Validation" (productUpdateSchema body))).
Proof.
  intros Hinvalid. unfold Product_findByIdAndUpdate. run.
  by destruct (productUpdateSchema body).
Qed.

Lemma Product_findByIdAndDelete_missing id w :
  productColl w !! id = None →
  (Product_findByIdAndDelete id w).2 = Return None.
Proof.
  intros Hmissing. unfold Product_findByIdAndDelete. run. by rewrite Hmissing.
Qed.

(** Whatever reaches the error middlewares of the application with farms as
    a [ReferenceError] is answered with 500 and the engine's message. *)
Lemma reference_error_response (ident : string) :
  Express.handle_error FarmApp.errorMiddlewares (ReferenceError ident) =
    ResSend 500 (referenceErrorMessage ident).
Proof. reflexivity. Qed.

(** C3.  GET /products/:id with an identifier that resolves to no product:
    the products-only application answers 404 with the body "Product not
    found"; the application with farms has no such guard and renders the
    details view with a [null] product. *)
Theorem product_detail_not_found (w : World) (id : ObjectId) :
  productColl w !! id = None →
  ProductsApp.GET_product id w =
    (logged (ProductFindById id) w, ResSend 404 "Product not found") ∧
  FarmApp.GET_product id w =
    (logged (ProductFindById id) w,
     ResRender "products/details" (DetailsPopulatedLocals None)).
Proof.
  intros Hmissing. split.
  - unfold ProductsApp.GET_product, Express.handle, ProductsApp.wrapAsync,
      ProductsApp.get_product, Product_findById.
    run. by rewrite Hmissing.
  - unfold FarmApp.GET_product, Express.handle, FarmApp.wrapAsync,
      FarmApp.get_product, Product_findById_populate_farm.
    run. by rewrite Hmissing.
Qed.

(** C6.  PUT /products/:id with valid fields and an identifier that resolves
    to no product: the products-only application fails with NotFound (404,
    "Product not found"); in the application with farms the guard throws a
    [ReferenceError] and the answer is 500 with the engine's message. *)
Theorem update_product_not_found (w : World) (id : ObjectId) (body : Fields) :
  productUpdateSchema body = [] →
  productColl w !! id = None →
  ProductsApp.PUT_product id body w =
    (logged (ProductFindByIdAndUpdate id body) w, ResSend 404 "Product not found") ∧
  FarmApp.PUT_product id body w =
    (logged (ProductFindByIdAndUpdate id body) w,
     ResSend 500 (referenceErrorMessage "AppError")).
Proof.
  intros Hvalid Hmissing. split.
  - unfold ProductsApp.PUT_product, Express.handle, ProductsApp.wrapAsync,
      ProductsApp.put_product.
    unfold mbind at 1, Async_bind at 1.
    by rewrite (Product_findByIdAndUpdate_missing id body w Hvalid Hmissing).
  - unfold FarmApp.PUT_product, Express.handle, FarmApp.wrapAsync,
      FarmApp.put_product.
    unfold mbind at 1, Async_bind at 1.
    by rewrite (Product_findByIdAndUpdate_missing id body w Hvalid Hmissing).
Qed.

(** The rest of the update route holds in both applications: valid fields
    are written to the product and the answer is the redirect to its
    detail path. *)
Lemma update_product_persists (w : World) (id : ObjectId) (p : Product) (body : Fields) :
  productUpdateSchema body = [] →
  productColl w !! id = Some p →
  let w' := withProducts (<[id := setFields body p]> (productColl w))
              (logged (ProductFindByIdAndUpdate id body) w) in
  ProductsApp.PUT_product id body w = (w', ResRedirect ("/products/" +:+ id)) ∧
  FarmApp.PUT_product id body w = (w', ResRedirect ("/products/" +:+ id)) ∧
  productColl w' !! id = Some (setFields body p).
Proof.
  intros Hvalid Hfound w'. split; [|split].
  - unfold ProductsApp.PUT_product, Express.handle, ProductsApp.wrapAsync,
      ProductsApp.put_product.
    unfold mbind at 1, Async_bind at 1.
    by rewrite (Product_findByIdAndUpdate_found id body p w Hvalid Hfound).
  - unfold FarmApp.PUT_product, Express.handle, FarmApp.wrapAsync,
      FarmApp.put_product.
    unfold mbind at 1, Async_bind at 1.
    by rewrite (Product_findByIdAndUpdate_found id body p w Hvalid Hfound).
  - apply lookup_insert_eq.
Qed.

(** Every field that the update gives is the stored one afterwards, and the
    others stay. *)
Lemma setFields_changed (body : Fields) (p : Product) :
  (∀ v, name body = Some v → p_name (setFields body p) = Some v) ∧
  (∀ v, price body = Some v → p_price (setFields body p) = Some v) ∧
  (∀ v, category body = Some v → p_category (setFields body p) = Some v) ∧
  (name body = None → p_name (setFields body p) = p_name p) ∧
  (price body = None → p_price (setFields body p) = p_price p) ∧
  (category body = None → p_category (setFields body p) = p_category p) ∧
  p_farm (setFields body p) = p_farm p.
Proof.
  unfold setFields. simpl.
  repeat split; try (intros v Hv; by rewrite Hv); try (intros Hv; by rewrite Hv).
Qed.

(** Field-level validation is applied again: an update that fails it writes
    nothing, and the products-only application answers 400. *)
Lemma update_product_invalid (w : World) (id : ObjectId) (body : Fields) :
  productUpdateSchema body ≠ [] →
  ProductsApp.PUT_product id body w =
    (logged (ProductFindByIdAndUpdate id body) w,
     ResSend 400 ("Validation failed... " +:+
                  validationMessage "Validation" (productUpdateSchema body))).
Proof.
  intros Hinvalid.
  unfold ProductsApp.PUT_product, Express.handle, ProductsApp.wrapAsync,
    ProductsApp.put_product.
  unfold mbind at 1, Async_bind at 1.
  by rewrite (Product_findByIdAndUpdate_invalid id body w Hinvalid).
Qed.

(** The update handler of the application with farms on an identifier
    without product: the validators of the update run before the lookup, so
    that fields which fail them throw the [ValidationError]; with fields that
    pass, the guard is reached and throws the [ReferenceError]. *)
Lemma put_product_missing_throws (w : World) (id : ObjectId) (body : Fields) :
  productColl w !! id = None →
  (FarmApp.put_product id body w).2 =
    match productUpdateSchema body with
    | [] => Throw (ReferenceError "AppError")
    | paths => Throw (ValidationError "Validation" paths)
    end.
Proof.
  intros Hmissing. unfold FarmApp.put_product.
  unfold mbind at 1, Async_bind at 1.
  destruct (productUpdateSchema body) as [|path paths] eqn:Hschema.
  - by rewrite (Product_findByIdAndUpdate_missing id body w Hschema Hmissing).
  - rewrite Product_findByIdAndUpdate_invalid; [by rewrite Hschema|].
    by rewrite Hschema.
Qed.

(** C9, amended.  In the application with farms [AppError] is not bound.  For
    an identifier that resolves to no product, the not-found guard of the
    edit, update and delete routes throws a [ReferenceError] when it is
    reached: the edit and delete handlers always reach it; the update handler
    reaches it when the fields pass the update validators, and throws the
    [ValidationError] of the update otherwise, whose rewrapping in the error
    middleware throws the same [ReferenceError].  In every case the wrapper
    forwards the error, and the answer is 500 with the message of the
    [ReferenceError] as the body.  It is never the 404 of an application
    error. *)
Theorem missing_AppError_response (w : World) (id : ObjectId) (body : Fields) :
  productColl w !! id = None →
  (FarmApp.get_product_edit id w).2 = Throw (ReferenceError "AppError") ∧
  (FarmApp.delete_product id w).2 = Throw (ReferenceError "AppError") ∧
  (FarmApp.put_product id body w).2 =
    match productUpdateSchema body with
    | [] => Throw (ReferenceError "AppError")
    | paths => Throw (ValidationError "Validation" paths)
    end ∧
  (FarmApp.GET_product_edit id w).2 = ResSend 500 (referenceErrorMessage "AppError") ∧
  (FarmApp.PUT_product id body w).2 = ResSend 500 (referenceErrorMessage "AppError") ∧
  (FarmApp.DELETE_product id w).2 = ResSend 500 (referenceErrorMessage "AppError") ∧
  ∀ text, (FarmApp.GET_product_edit id w).2 ≠ ResSend 404 text ∧
          (FarmApp.PUT_product id body w).2 ≠ ResSend 404 text ∧
          (FarmApp.DELETE_product id w).2 ≠ ResSend 404 text.
Proof.
  intros Hmissing.
  assert (Hedit : (FarmApp.get_product_edit id w).2 = Throw (ReferenceError "AppError")).
  { unfold FarmApp.get_product_edit, Product_findById. run. by rewrite Hmissing. }
  assert (Hdelete : (FarmApp.delete_product id w).2 = Throw (ReferenceError "AppError")).
  { unfold FarmApp.delete_product, Product_findByIdAndDelete. run. by rewrite Hmissing. }
  pose proof (put_product_missing_throws w id body Hmissing) as Hput.
  assert (HEDIT : (FarmApp.GET_product_edit id w).2 =
                  ResSend 500 (referenceErrorMessage "AppError")).
  { unfold FarmApp.GET_product_edit, Express.handle, FarmApp.wrapAsync.
    destruct (FarmApp.get_product_edit id w) as [w1 c]. simpl in Hedit.
    by rewrite Hedit. }
  assert (HDELETE : (FarmApp.DELETE_product id w).2 =
                    ResSend 500 (referenceErrorMessage "AppError")).
  { unfold FarmApp.DELETE_product, Express.handle, FarmApp.wrapAsync.
    destruct (FarmApp.delete_product id w) as [w1 c]. simpl in Hdelete.
    by rewrite Hdelete. }
  assert (HPUT : (FarmApp.PUT_product id body w).2 =
                 ResSend 500 (referenceErrorMessage "AppError")).
  { unfold FarmApp.PUT_product, Express.handle, FarmApp.wrapAsync.
    destruct (FarmApp.put_product id body w) as [w1 c]. simpl in Hput.
    rewrite Hput. by destruct (productUpdateSchema body). }
  repeat split; try assumption.
  - rewrite HEDIT. discriminate.
  - rewrite HPUT. discriminate.
  - rewrite HDELETE. discriminate.
Qed.
End NotFound.

Lemma product_detail_not_found_witness :
  ProductsApp.GET_product no_product_id stand =
    (logged (ProductFindById no_product_id) stand, ResSend 404 "Product not found") ∧
  FarmApp.GET_product (R := node_runtime) no_product_id stand =
    (logged (ProductFindById no_product_id) stand,
     ResRender "products/details" (DetailsPopulatedLocals None)).
Proof. apply (product_detail_not_found (R := node_runtime) stand no_product_id). reflexivity. Defined.

Lemma update_product_not_found_witness :
  ProductsApp.PUT_product (R := node_runtime) no_product_id kiwi stand =
    (logged (ProductFindByIdAndUpdate no_product_id kiwi) stand, ResSend 404 "Product not found") ∧
  FarmApp.PUT_product (R := node_runtime) no_product_id kiwi stand =
    (logged (ProductFindByIdAndUpdate no_product_id kiwi) stand,
     ResSend 500 "AppError is not defined").
Proof.
  apply (update_product_not_found (R := node_runtime) stand no_product_id kiwi); reflexivity.
Defined.

Lemma missing_AppError_response_witness :
  (FarmApp.get_product_edit (R := node_runtime) no_product_id stand).2 =
    Throw (ReferenceError (R := node_runtime) "AppError") ∧
  (FarmApp.delete_product (R := node_runtime) no_product_id stand).2 =
    Throw (ReferenceError (R := node_runtime) "AppError") ∧
  (FarmApp.put_product (R := node_runtime) no_product_id kiwi stand).2 =
    Throw (ReferenceError (R := node_runtime) "AppError") ∧
  (FarmApp.GET_product_edit (R := node_runtime) no_product_id stand).2 =
    ResSend 500 "AppError is not defined" ∧
  (FarmApp.PUT_product (R := node_runtime) no_product_id kiwi stand).2 =
    ResSend 500 "AppError is not defined" ∧
  (FarmApp.DELETE_product (R := node_runtime) no_product_id stand).2 =
    ResSend 500 "AppError is not defined" ∧
  ∀ text, (FarmApp.GET_product_edit (R := node_runtime) no_product_id stand).2 ≠ ResSend 404 text ∧
          (FarmApp.PUT_product (R := node_runtime) no_product_id kiwi stand).2 ≠ ResSend 404 text ∧
          (FarmApp.DELETE_product (R := node_runtime) no_product_id stand).2 ≠ ResSend 404 text.
Proof.
  apply (missing_AppError_response (R := node_runtime) stand no_product_id kiwi). reflexivity.
Defined.

(** C9 as stated fails: on Node.js the body of the answer of the edit route
    for the absent product [no_product_id] is the message of the [ReferenceError], not
    "Something went wrong". *)
Lemma missing_AppError_body_counterexample :
  productColl stand !! no_product_id = None ∧
  (FarmApp.GET_product_edit (R := node_runtime) no_product_id stand).2 =
    ResSend 500 "AppError is not defined" ∧
  (FarmApp.GET_product_edit (R := node_runtime) no_product_id stand).2 ≠
    ResSend 500 "Something went wrong".
Proof.
  split; [reflexivity|]. split; [reflexivity|].
  vm_compute. discriminate.
Qed.

(** An update whose name is empty never reaches the guard: its handler
    throws the [ValidationError], and the answer is still the 500 of the
    [ReferenceError]. *)
Lemma put_product_invalid_missing_example :
  (FarmApp.put_product (R := node_runtime) no_product_id nameless stand).2 =
    Throw (ValidationError (R := node_runtime) "Validation" ["name"]) ∧
  (FarmApp.PUT_product (R := node_runtime) no_product_id nameless stand).2 =
    ResSend 500 "AppError is not defined".
Proof. split; reflexivity. Qed.

(** ** Adding a product to a farm that does not exist *)

Section NoFarm.
Context {R : Runtime}.

(** C10, amended.  POST /farms/:id/products with an identifier that resolves
    to no farm: reading [products] of the [null] farm throws a [TypeError],
    which the wrapper forwards to the error middlewares; nothing is written,
    and the answer is 500 with the message of that [TypeError] as the body.
    It is not a 404. *)
Theorem add_product_to_missing_farm (w : World) (id : ObjectId) (body : Fields) :
  farmColl w !! id = None →
  FarmApp.post_farm_products id body w =
    (logged (FarmFindById id) w, Throw (TypeError_null "products")) ∧
  FarmApp.wrapAsync (FarmApp.post_farm_products id body) w =
    (logged (FarmFindById id) w, Return (Next (TypeError_null "products"))) ∧
  FarmApp.POST_farm_products id body w =
    (logged (FarmFindById id) w, ResSend 500 (nullPropertyMessage "products")) ∧
  ∀ text, (FarmApp.POST_farm_products id body w).2 ≠ ResSend 404 text.
Proof.
  intros Hmissing.
  assert (Hrun : FarmApp.post_farm_products id body w =
                 (logged (FarmFindById id) w, Throw (TypeError_null "products"))).
  { unfold FarmApp.post_farm_products, Farm_findById, Product_new. run.
    by rewrite Hmissing. }
  assert (HPOST : FarmApp.POST_farm_products id body w =
    (logged (FarmFindById id) w, ResSend 500 (nullPropertyMessage "products"))).
  { unfold FarmApp.POST_farm_products, Express.handle, FarmApp.wrapAsync.
    by rewrite Hrun. }
  split; [exact Hrun|]. split.
  - unfold FarmApp.wrapAsync. by rewrite Hrun.
  - split; [exact HPOST|]. intros text. rewrite HPOST. simpl. discriminate.
Qed.
End NoFarm.

Lemma add_product_to_missing_farm_witness :
  FarmApp.post_farm_products (R := node_runtime) no_farm_id kiwi stand =
    (logged (FarmFindById no_farm_id) stand,
     Throw (TypeError_null (R := node_runtime) "products")) ∧
  FarmApp.wrapAsync (FarmApp.post_farm_products (R := node_runtime) no_farm_id kiwi) stand =
    (logged (FarmFindById no_farm_id) stand,
     Return (Next (TypeError_null (R := node_runtime) "products"))) ∧
  FarmApp.POST_farm_products (R := node_runtime) no_farm_id kiwi stand =
    (logged (FarmFindById no_farm_id) stand,
     ResSend 500 "Cannot read property 'products' of null") ∧
  ∀ text, (FarmApp.POST_farm_products (R := node_runtime) no_farm_id kiwi stand).2 ≠
          ResSend 404 text.
Proof.
  apply (add_product_to_missing_farm (R := node_runtime) stand no_farm_id kiwi). reflexivity.
Defined.

(** C10 as stated fails: on Node.js the body of the answer for the absent
    farm [no_farm_id] is the message of the [TypeError], not "Something went
    wrong". *)
Lemma add_product_to_missing_farm_counterexample :
  farmColl stand !! no_farm_id = None ∧
  (FarmApp.POST_farm_products (R := node_runtime) no_farm_id kiwi stand).2 =
    ResSend 500 "Cannot read property 'products' of null" ∧
  (FarmApp.POST_farm_products (R := node_runtime) no_farm_id kiwi stand).2 ≠
    ResSend 500 "Something went wrong".
Proof.
  split; [reflexivity|]. split; [reflexivity|].
  vm_compute. discriminate.
Qed.

(** * Further properties of the routes *)

(** ** The error middlewares as a chain *)

(** X2.  The error middlewares of the products-only application: an error
    named "ValidationError" is answered 400 with "Validation failed... " and
    its message (the text "undefined" when it has none), whatever status it
    carried; every other error is answered with its own status and message,
    500 and "Something went wrong" standing in for those it lacks. *)
Theorem products_app_error_chain (err : JsError) :
  Express.handle_error ProductsApp.errorMiddlewares err =
    if String.eqb (err_name err) "ValidationError"
    then ResSend 400 ("Validation failed... " +:+ default "undefined" (err_message err))
    else ResSend (default 500 (err_status err))
                 (default "Something went wrong" (err_message err)).
Proof.
  unfold Express.handle_error, ProductsApp.errorMiddlewares,
    ProductsApp.validationMiddleware, ProductsApp.handleValidationErr,
    ProductsApp.new_AppError, ProductsApp.terminalMiddleware, template.
  destruct (String.eqb (err_name err) "ValidationError"); reflexivity.
Qed.

(** X3.  The error middlewares of the application with farms: rewrapping an
    error named "ValidationError" throws the [ReferenceError] of the unbound
    [AppError], so that it is answered 500 with the engine's message and
    never 400; every other error is answered as by the terminal middleware
    alone. *)
Theorem farm_app_error_chain {R : Runtime} (err : JsError) :
  Express.handle_error FarmApp.errorMiddlewares err =
    if String.eqb (err_name err) "ValidationError"
    then ResSend 500 (referenceErrorMessage "AppError")
    else ResSend (default 500 (err_status err))
                 (default "Something went wrong" (err_message err)).
Proof.
  unfold Express.handle_error, FarmApp.errorMiddlewares,
    FarmApp.validationMiddleware, FarmApp.handleValidationErr,
    FarmApp.new_AppError, FarmApp.terminalMiddleware.
  destruct (String.eqb (err_name err) "ValidationError"); reflexivity.
Qed.

(** ** Creating, reading and deleting a product *)

Section ProductRoutes.
Context {R : Runtime}.

Lemma post_products_valid_run (w : World) (body : Fields) :
  productSchema (productOfFields body) = [] →
  ProductsApp.POST_products body w =
    (withProducts (<[newObjectId w := productOfFields body]> (productColl w))
                  (logged (ProductSave (newObjectId w)) w),
     ResRedirect ("/products/" +:+ newObjectId w)).
Proof.
  intros Hvalid.
  unfold ProductsApp.POST_products, Express.handle, ProductsApp.wrapAsync,
    ProductsApp.post_products, Product_new, Product_save.
  run. change (productSchema _) with (productSchema (productOfFields body)).
  by rewrite Hvalid.
Qed.

Lemma get_product_found_run (w : World) (id : ObjectId) (p : Product) :
  productColl w !! id = Some p →
  ProductsApp.GET_product id w =
    (logged (ProductFindById id) w,
     ResRender "products/details" (DetailsLocals (id, p))).
Proof.
  intros Hfound.
  unfold ProductsApp.GET_product, Express.handle, ProductsApp.wrapAsync,
    ProductsApp.get_product, Product_findById.
  run. by rewrite Hfound.
Qed.

Lemma get_product_missing_run (w : World) (id : ObjectId) :
  productColl w !! id = None →
  ProductsApp.GET_product id w =
    (logged (ProductFindById id) w, ResSend 404 "Product not found").
Proof.
  intros Hmissing.
  unfold ProductsApp.GET_product, Express.handle, ProductsApp.wrapAsync,
    ProductsApp.get_product, Product_findById.
  run. by rewrite Hmissing.
Qed.

(** X5.  A product created by POST /products is the one that GET
    /products/:id then shows under the identifier of the redirect. *)
Theorem create_then_detail (w : World) (body : Fields) :
  productSchema (productOfFields body) = [] →
  ProductsApp.GET_product (newObjectId w) (ProductsApp.POST_products body w).1 =
    (logged (ProductFindById (newObjectId w)) (ProductsApp.POST_products body w).1,
     ResRender "products/details"
       (DetailsLocals (newObjectId w, productOfFields body))).
Proof.
  intros Hvalid. rewrite (post_products_valid_run w body Hvalid).
  apply get_product_found_run. simpl. apply lookup_insert_eq.
Qed.

Lemma delete_product_found_run (w : World) (id : ObjectId) (p : Product) :
  productColl w !! id = Some p →
  ProductsApp.DELETE_product id w =
    (withProducts (delete id (productColl w)) (logged (ProductFindByIdAndDelete id) w),
     ResRedirect "/products") ∧
  FarmApp.DELETE_product id w =
    (withProducts (delete id (productColl w)) (logged (ProductFindByIdAndDelete id) w),
     ResRedirect "/products").
Proof.
  intros Hfound. split.
  - unfold ProductsApp.DELETE_product, Express.handle, ProductsApp.wrapAsync,
      ProductsApp.delete_product, Product_findByIdAndDelete.
    run. by rewrite Hfound.
  - unfold FarmApp.DELETE_product, Express.handle, FarmApp.wrapAsync,
      FarmApp.delete_product, Product_findByIdAndDelete.
    run. by rewrite Hfound.
Qed.

(** X6.  DELETE /products/:id of a product that exists, in both applications:
    that product is removed and no other, the answer is the redirect to the
    list, and the farms are not touched, so that a farm which listed the
    product still lists it. *)
Theorem delete_product_found (w : World) (id : ObjectId) (p : Product) :
  productColl w !! id = Some p →
  ∃ w', ProductsApp.DELETE_product id w = (w', ResRedirect "/products") ∧
        FarmApp.DELETE_product id w = (w', ResRedirect "/products") ∧
        productColl w' !! id = None ∧
        (∀ id' : ObjectId, id' ≠ id → productColl w' !! id' = productColl w !! id') ∧
        farmColl w' = farmColl w.
Proof.
  intros Hfound.
  destruct (delete_product_found_run w id p Hfound) as [Hp Hf].
  eexists. split; [exact Hp|]. split; [exact Hf|]. simpl.
  split; [apply lookup_delete_eq|]. split; [|done].
  intros id' Hne. by apply lookup_delete_ne.
Qed.

(** X7.  DELETE /products/:id of an identifier without product, in the
    products-only application: the answer is 404 "Product not found" and the
    collection stays as it was. *)
Theorem delete_product_missing (w : World) (id : ObjectId) :
  productColl w !! id = None →
  ∃ w', ProductsApp.DELETE_product id w = (w', ResSend 404 "Product not found") ∧
        same_collections w w' ∧
        odmLog w' = odmLog w ++ [ProductFindByIdAndDelete id].
Proof.
  intros Hmissing. eexists. split.
  - unfold ProductsApp.DELETE_product, Express.handle, ProductsApp.wrapAsync,
      ProductsApp.delete_product, Product_findByIdAndDelete.
    run. rewrite Hmissing. reflexivity.
  - simpl. split; [|done]. split; [|done]. simpl. by apply delete_id.
Qed.

(** X8.  Deleting a product and asking for its details afterwards gives 404
    "Product not found" in the products-only application. *)
Theorem delete_then_detail (w : World) (id : ObjectId) (p : Product) :
  productColl w !! id = Some p →
  (ProductsApp.GET_product id (ProductsApp.DELETE_product id w).1).2 =
    ResSend 404 "Product not found".
Proof.
  intros Hfound.
  destruct (delete_product_found_run w id p Hfound) as [-> _].
  rewrite get_product_missing_run; [done|]. simpl. apply lookup_delete_eq.
Qed.

(** X9.  GET /products/:id/edit of an identifier without product answers 404
    "Product not found" in the products-only application, after the one
    lookup. *)
Theorem edit_product_not_found (w : World) (id : ObjectId) :
  productColl w !! id = None →
  ProductsApp.GET_product_edit id w =
    (logged (ProductFindById id) w, ResSend 404 "Product not found").
Proof.
  intros Hmissing.
  unfold ProductsApp.GET_product_edit, Express.handle, ProductsApp.wrapAsync,
    ProductsApp.get_product_edit, Product_findById.
  run. by rewrite Hmissing.
Qed.

End ProductRoutes.

(** ** The category filter *)

(** X11.  GET /products?category=c with any category that is not empty, in
    both applications: the view gets exactly the products whose category is
    [c], and [c] itself as the label; [c] need not be one of the three
    categories of the form. *)
Theorem list_products_any_category {R : Runtime} (w : World) (c : string) :
  c ≠ "" →
  lists_exactly w (Some c) c (λ p, p_category p = Some c)
    (ProductsApp.GET_products (Some c) w) ∧
  lists_exactly w (Some c) c (λ p, p_category p = Some c)
    (FarmApp.GET_products (Some c) w).
Proof.
  intros Hc. apply String.eqb_neq in Hc.
  assert (Hrun : lists_exactly w (Some c) c (λ p, p_category p = Some c)
    (logged (ProductFind (Some c)) w,
     ResRender "products/index"
       (IndexLocals (filter (λ d : Doc Product, p_category d.2 = Some c)
                            (map_to_list (productColl w))) c))).
  { eexists. split; [reflexivity|].
    split; [apply NoDup_filter, NoDup_map_to_list|].
    apply find_category_exact. }
  split.
  - unfold ProductsApp.GET_products, Express.handle, ProductsApp.get_products,
      truthy_string. rewrite Hc. exact Hrun.
  - unfold FarmApp.GET_products, Express.handle, FarmApp.get_products,
      truthy_string. rewrite Hc. exact Hrun.
Qed.

Lemma list_products_any_category_witness :
  lists_exactly stand (Some "meat") "meat" (λ p, p_category p = Some "meat")
    (ProductsApp.GET_products (Some "meat") stand) ∧
  lists_exactly stand (Some "meat") "meat" (λ p, p_category p = Some "meat")
    (FarmApp.GET_products (R := node_runtime) (Some "meat") stand).
Proof.
  apply (list_products_any_category (R := node_runtime) stand "meat"). discriminate.
Defined.

(** ** Updating a product *)

Section UpdateRoutes.
Context {R : Runtime}.

(** X14.  PUT /products/:id with fields that fail the update validators: no
    document is written, even when the product exists; the products-only
    application answers 400 with the validation message, the application
    with farms 500 with the message of the [ReferenceError]. *)
Theorem update_invalid_writes_nothing (w : World) (id : ObjectId) (body : Fields) :
  productUpdateSchema body ≠ [] →
  ProductsApp.PUT_product id body w =
    (logged (ProductFindByIdAndUpdate id body) w,
     ResSend 400 ("Validation failed... " +:+
                  validationMessage "Validation" (productUpdateSchema body))) ∧
  FarmApp.PUT_product id body w =
    (logged (ProductFindByIdAndUpdate id body) w,
     ResSend 500 (referenceErrorMessage "AppError")).
Proof.
  intros Hinvalid. split.
  - unfold ProductsApp.PUT_product, Express.handle, ProductsApp.wrapAsync,
      ProductsApp.put_product.
    unfold mbind at 1, Async_bind at 1.
    by rewrite (Product_findByIdAndUpdate_invalid id body w Hinvalid).
  - unfold FarmApp.PUT_product, Express.handle, FarmApp.wrapAsync,
      FarmApp.put_product.
    unfold mbind at 1, Async_bind at 1.
    by rewrite (Product_findByIdAndUpdate_invalid id body w Hinvalid).
Qed.

Lemma put_product_found_run (w : World) (id : ObjectId) (p : Product) (body : Fields) :
  productUpdateSchema body = [] →
  productColl w !! id = Some p →
  ProductsApp.PUT_product id body w =
    (withProducts (<[id := setFields body p]> (productColl w))
                  (logged (ProductFindByIdAndUpdate id body) w),
     ResRedirect ("/products/" +:+ id)).
Proof.
  intros Hvalid Hfound.
  unfold ProductsApp.PUT_product, Express.handle, ProductsApp.wrapAsync,
    ProductsApp.put_product.
  unfold mbind at 1, Async_bind at 1.
  by rewrite (Product_findByIdAndUpdate_found id body p w Hvalid Hfound).
Qed.

(** X15.  PUT /products/:id with a body that sets no field, on a product
    that exists: the collection is left exactly as it was and the answer is
    the redirect to the product. *)
Theorem update_without_fields (w : World) (id : ObjectId) (p : Product) :
  productColl w !! id = Some p →
  ∃ w', ProductsApp.PUT_product id no_fields w = (w', ResRedirect ("/products/" +:+ id)) ∧
        same_collections w w'.
Proof.
  intros Hfound. eexists. split.
  - by apply (put_product_found_run w id p no_fields).
  - split; [|done]. simpl. apply insert_id. rewrite Hfound. by destruct p.
Qed.

(** X16.  After a valid PUT /products/:id on a product that exists, GET
    /products/:id shows the product with the fields of the update set and
    the others as before. *)
Theorem update_then_detail (w : World) (id : ObjectId) (p : Product) (body : Fields) :
  productUpdateSchema body = [] →
  productColl w !! id = Some p →
  (ProductsApp.GET_product id (ProductsApp.PUT_product id body w).1).2 =
    ResRender "products/details" (DetailsLocals (id, setFields body p)).
Proof.
  intros Hvalid Hfound. rewrite (put_product_found_run w id p body Hvalid Hfound).
  rewrite (get_product_found_run _ id (setFields body p)); [done|].
  simpl. apply lookup_insert_eq.
Qed.

(** X17.  PUT /products/:id, whatever the body and whether the product exists
    or not, changes no product other than the one addressed and no farm, in
    both applications. *)
Theorem update_product_frame (w : World) (id : ObjectId) (body : Fields) :
  (∀ id' : ObjectId, id' ≠ id →
     productColl (ProductsApp.PUT_product id body w).1 !! id' = productColl w !! id') ∧
  farmColl (ProductsApp.PUT_product id body w).1 = farmColl w ∧
  (∀ id' : ObjectId, id' ≠ id →
     productColl (FarmApp.PUT_product id body w).1 !! id' = productColl w !! id') ∧
  farmColl (FarmApp.PUT_product id body w).1 = farmColl w.
Proof.
  assert (Hrun : ∃ w', (Product_findByIdAndUpdate id body w).1 = w' ∧
    (∀ id' : ObjectId, id' ≠ id → productColl w' !! id' = productColl w !! id') ∧
    farmColl w' = farmColl w).
  { destruct (decide (productUpdateSchema body = [])) as [Hvalid|Hinvalid].
    - destruct (productColl w !! id) as [p|] eqn:Hp.
      + rewrite (Product_findByIdAndUpdate_found id body p w Hvalid Hp).
        eexists. split; [reflexivity|]. simpl. split; [|done].
        intros id' Hne. by apply lookup_insert_ne.
      + rewrite (Product_findByIdAndUpdate_missing id body w Hvalid Hp).
        eexists. split; [reflexivity|]. done.
    - rewrite (Product_findByIdAndUpdate_invalid id body w Hinvalid).
      eexists. split; [reflexivity|]. done. }
  destruct Hrun as (w' & Hw' & Hproducts & Hfarms).
  assert (HP : (ProductsApp.PUT_product id body w).1 = w').
  { unfold ProductsApp.PUT_product, Express.handle, ProductsApp.wrapAsync,
      ProductsApp.put_product.
    unfold mbind at 1, Async_bind at 1.
    destruct (Product_findByIdAndUpdate id body w) as [w1 [[d|]|e]]; simpl in *; done. }
  assert (HF : (FarmApp.PUT_product id body w).1 = w').
  { unfold FarmApp.PUT_product, Express.handle, FarmApp.wrapAsync,
      FarmApp.put_product.
    unfold mbind at 1, Async_bind at 1.
    destruct (Product_findByIdAndUpdate id body w) as [w1 [[d|]|e]]; simpl in *; done. }
  rewrite HP, HF. done.
Qed.
End UpdateRoutes.

Lemma update_invalid_writes_nothing_witness :
  ProductsApp.PUT_product (R := node_runtime) apple_id nameless stand =
    (logged (ProductFindByIdAndUpdate apple_id nameless) stand,
     ResSend 400 ("Validation failed... " +:+
                  validationMessage (Runtime := node_runtime) "Validation"
                    (productUpdateSchema nameless))) ∧
  FarmApp.PUT_product (R := node_runtime) apple_id nameless stand =
    (logged (ProductFindByIdAndUpdate apple_id nameless) stand,
     ResSend 500 "AppError is not defined").
Proof.
  apply (update_invalid_writes_nothing (R := node_runtime) stand apple_id nameless).
  vm_compute. discriminate.
Defined.

Lemma update_without_fields_witness :
  ∃ w', ProductsApp.PUT_product (R := node_runtime) apple_id no_fields stand =
          (w', ResRedirect ("/products/" +:+ apple_id)) ∧
        same_collections stand w'.
Proof.
  apply (update_without_fields (R := node_runtime) stand apple_id apple). reflexivity.
Defined.

Lemma update_then_detail_witness :
  (ProductsApp.GET_product apple_id
     (ProductsApp.PUT_product (R := node_runtime) apple_id kiwi stand).1).2 =
    ResRender "products/details" (DetailsLocals (apple_id, setFields kiwi apple)).
Proof.
  apply (update_then_detail (R := node_runtime) stand apple_id apple kiwi); reflexivity.
Defined.

Lemma update_product_persists_witness :
  let w' := withProducts (<[apple_id := setFields kiwi apple]> (productColl stand))
              (logged (ProductFindByIdAndUpdate apple_id kiwi) stand) in
  ProductsApp.PUT_product (R := node_runtime) apple_id kiwi stand =
    (w', ResRedirect ("/products/" +:+ apple_id)) ∧
  FarmApp.PUT_product (R := node_runtime) apple_id kiwi stand =
    (w', ResRedirect ("/products/" +:+ apple_id)) ∧
  productColl w' !! apple_id = Some (setFields kiwi apple).
Proof.
  apply (update_product_persists (R := node_runtime) stand apple_id apple kiwi);
    reflexivity.
Defined.

Lemma create_then_detail_witness :
  ProductsApp.GET_product (newObjectId stand)
      (ProductsApp.POST_products (R := node_runtime) kiwi stand).1 =
    (logged (ProductFindById (newObjectId stand))
       (ProductsApp.POST_products (R := node_runtime) kiwi stand).1,
     ResRender "products/details"
       (DetailsLocals (newObjectId stand, productOfFields kiwi))).
Proof. apply (create_then_detail (R := node_runtime) stand kiwi). reflexivity. Defined.

Lemma delete_product_found_witness :
  ∃ w', ProductsApp.DELETE_product apple_id stand = (w', ResRedirect "/products") ∧
        FarmApp.DELETE_product (R := node_runtime) apple_id stand =
          (w', ResRedirect "/products") ∧
        productColl w' !! apple_id = None ∧
        (∀ id' : ObjectId, id' ≠ apple_id →
           productColl w' !! id' = productColl stand !! id') ∧
        farmColl w' = farmColl stand.
Proof. apply (delete_product_found (R := node_runtime) stand apple_id apple). reflexivity. Defined.

Lemma delete_product_missing_witness :
  ∃ w', ProductsApp.DELETE_product no_product_id stand =
          (w', ResSend 404 "Product not found") ∧
        same_collections stand w' ∧
        odmLog w' = odmLog stand ++ [ProductFindByIdAndDelete no_product_id].
Proof. apply (delete_product_missing stand no_product_id). reflexivity. Defined.

Lemma delete_then_detail_witness :
  (ProductsApp.GET_product apple_id (ProductsApp.DELETE_product apple_id stand).1).2 =
    ResSend 404 "Product not found".
Proof. apply (delete_then_detail (R := node_runtime) stand apple_id apple). reflexivity. Defined.

Lemma edit_product_not_found_witness :
  ProductsApp.GET_product_edit no_product_id stand =
    (logged (ProductFindById no_product_id) stand, ResSend 404 "Product not found").
Proof. apply (edit_product_not_found stand no_product_id). reflexivity. Defined.

(** ** Deleting a farm: what goes and what stays *)

Section FarmRoutes.
Context {R : Runtime}.

Lemma DELETE_farm_found_run (w : World) (id : ObjectId) (farm : Farm) :
  farmColl w !! id = Some farm →
  FarmApp.DELETE_farm id w =
    (let w1 := withFarms (delete id (farmColl w)) (logged (FarmFindByIdAndDelete id) w) in
     if truthy_length (f_products farm)
     then (Product_deleteMany (f_products farm) w1).1
     else w1,
     ResRedirect "/farms").
Proof.
  intros Hfarm.
  unfold FarmApp.DELETE_farm, Express.handle, FarmApp.delete_farm.
  unfold mbind at 1, Async_bind at 1.
  by rewrite (Farm_findByIdAndDelete_found id farm w Hfarm).
Qed.

(** X18.  DELETE /farms/:id with an identifier of no farm: the hook reads
    [products] of [null], the promise of the handler, which is not wrapped, is
    rejected, and no response is written; no document is deleted and no
    [deleteMany] is issued. *)
Theorem delete_missing_farm_unanswered (w : World) (id : ObjectId) :
  farmColl w !! id = None →
  ∃ w', FarmApp.DELETE_farm id w = (w', ResNone (TypeError_null "products")) ∧
        same_collections w w' ∧
        odmLog w' = odmLog w ++ [FarmFindByIdAndDelete id].
Proof.
  intros Hmissing. eexists. split.
  - unfold FarmApp.DELETE_farm, Express.handle, FarmApp.delete_farm.
    unfold mbind at 1, Async_bind at 1.
    rewrite (Farm_findByIdAndDelete_missing id w Hmissing). reflexivity.
  - simpl. split; [|done]. split; [done|]. simpl. by apply delete_id.
Qed.

(** X19.  DELETE /farms/:id of a farm that exists removes exactly the
    products that the farm lists: a product goes if and only if its
    identifier is in the farm's [products], whatever its own [farm] field
    says, and every other farm stays as it was. *)
Theorem delete_farm_frame (w : World) (id : ObjectId) (farm : Farm) :
  farmColl w !! id = Some farm →
  (∀ pid : ObjectId,
     productColl (FarmApp.DELETE_farm id w).1 !! pid =
       if decide (pid ∈ f_products farm) then None else productColl w !! pid) ∧
  (∀ fid : ObjectId, fid ≠ id →
     farmColl (FarmApp.DELETE_farm id w).1 !! fid = farmColl w !! fid).
Proof.
  intros Hfarm. rewrite (DELETE_farm_found_run w id farm Hfarm).
  cbv zeta. cbn [fst].
  destruct (truthy_length (f_products farm)) eqn:Hlen.
  - split.
    + intros pid. destruct (decide (pid ∈ f_products farm)) as [Hin|Hnot].
      * by apply Product_deleteMany_gone.
      * by rewrite Product_deleteMany_kept.
    + intros fid Hne. simpl. by apply lookup_delete_ne.
  - split.
    + intros pid. simpl.
      unfold truthy_length in Hlen. destruct (f_products farm); [|done].
      destruct (decide (pid ∈ [])) as [Hin|]; [by apply elem_of_nil in Hin | done].
    + intros fid Hne. simpl. by apply lookup_delete_ne.
Qed.

(** X20.  Deleting a farm whose [products] is not empty issues, after the
    deletion of the farm, one [deleteMany] over exactly the identifiers of
    that list, and no other call. *)
Theorem delete_farm_one_bulk_delete (w : World) (id : ObjectId) (farm : Farm) :
  farmColl w !! id = Some farm →
  f_products farm ≠ [] →
  odmLog (FarmApp.DELETE_farm id w).1 =
    odmLog w ++ [FarmFindByIdAndDelete id; ProductDeleteMany (f_products farm)].
Proof.
  intros Hfarm Hne. rewrite (DELETE_farm_found_run w id farm Hfarm). simpl.
  destruct (f_products farm) as [|pid pids] eqn:Hps; [done|]. simpl.
  by rewrite <- app_assoc.
Qed.

(** ** Adding a product: the rest of the database, and what follows *)

Lemma POST_farm_products_valid_run
    (w : World) (id : ObjectId) (farm : Farm) (body : Fields) :
  farmColl w !! id = Some farm →
  farmSchema farm = [] →
  productSchema (productOfFields body) = [] →
  FarmApp.POST_farm_products id body w =
    ({| productColl :=
          <[newObjectId w := {| p_name := name body; p_price := price body;
                                p_category := category body; p_farm := Some id |}]>
            (productColl w);
        farmColl :=
          <[id := {| f_name := f_name farm; f_city := f_city farm;
                     f_email := f_email farm;
                     f_products := f_products farm ++ [newObjectId w] |}]>
            (farmColl w);
        odmLog := ((odmLog w ++ [FarmFindById id]) ++ [FarmSave id])
                    ++ [ProductSave (newObjectId w)] |},
     ResRedirect ("/farms/" +:+ id)).
Proof.
  intros Hfarm Hf Hp.
  unfold FarmApp.POST_farm_products, Express.handle, FarmApp.wrapAsync.
  rewrite (post_farm_products_found id body farm w Hfarm).
  unfold Farm_save, Product_save. run.
  change (farmSchema _) with (farmSchema farm). rewrite Hf. simpl.
  change (productSchema _) with (productSchema (productOfFields body)).
  rewrite Hp. reflexivity.
Qed.

(** X23.  POST /farms/:id/products, whatever the body and whether the farm
    exists or not, touches no product other than the one it creates and no
    farm other than the one addressed. *)
Theorem add_product_frame (w : World) (id : ObjectId) (body : Fields) :
  (∀ pid : ObjectId, pid ≠ newObjectId w →
     productColl (FarmApp.POST_farm_products id body w).1 !! pid = productColl w !! pid) ∧
  (∀ fid : ObjectId, fid ≠ id →
     farmColl (FarmApp.POST_farm_products id body w).1 !! fid = farmColl w !! fid).
Proof.
  unfold FarmApp.POST_farm_products, Express.handle, FarmApp.wrapAsync.
  destruct (farmColl w !! id) as [farm|] eqn:Hfarm.
  - rewrite (post_farm_products_found id body farm w Hfarm).
    unfold Farm_save, Product_save. run.
    destruct (farmSchema _) as [|fpath fpaths]; simpl; [|done].
    destruct (productSchema _) as [|ppath ppaths]; simpl.
    + split; intros k Hne; by apply lookup_insert_ne.
    + split; [done|]. intros k Hne. by apply lookup_insert_ne.
  - unfold FarmApp.post_farm_products, Farm_findById, Product_new. run.
    rewrite Hfarm. simpl. done.
Qed.

(** X24.  A product added to a farm goes with the farm: after a POST
    /farms/:id/products that passes validation, DELETE /farms/:id answers
    with its redirect, and neither the farm nor the new product can be looked
    up any more. *)
Theorem add_then_delete_farm (w : World) (id : ObjectId) (farm : Farm) (body : Fields) :
  farmColl w !! id = Some farm →
  farmSchema farm = [] →
  productSchema (productOfFields body) = [] →
  ∃ w', FarmApp.DELETE_farm id (FarmApp.POST_farm_products id body w).1 =
          (w', ResRedirect "/farms") ∧
        farmColl w' !! id = None ∧
        productColl w' !! newObjectId w = None.
Proof.
  intros Hfarm Hf Hp.
  rewrite (POST_farm_products_valid_run w id farm body Hfarm Hf Hp). simpl.
  eexists. split.
  - apply DELETE_farm_found_run. simpl. apply lookup_insert_eq.
  - assert (Hlen : truthy_length (f_products farm ++ [newObjectId w]) = true).
    { unfold truthy_length. rewrite length_app. simpl.
      destruct (length (f_products farm)); done. }
    cbv zeta. cbn [fst f_products]. rewrite Hlen. split.
    + simpl. apply lookup_delete_eq.
    + apply Product_deleteMany_gone. apply elem_of_app. right.
      by apply list_elem_of_singleton.
Qed.

(** X25.  After a POST /farms/:id/products that passes validation, GET
    /products/:id of the new product shows it with the submitted fields and
    with the farm resolved to the farm's identifier and name. *)
Theorem add_then_detail (w : World) (id : ObjectId) (farm : Farm) (body : Fields) :
  farmColl w !! id = Some farm →
  farmSchema farm = [] →
  productSchema (productOfFields body) = [] →
  (FarmApp.GET_product (newObjectId w) (FarmApp.POST_farm_products id body w).1).2 =
    ResRender "products/details"
      (DetailsPopulatedLocals
         (Some ((newObjectId w,
                 {| p_name := name body; p_price := price body;
                    p_category := category body; p_farm := Some id |}),
                Some (id, f_name farm)))).
Proof.
  intros Hfarm Hf Hp.
  rewrite (POST_farm_products_valid_run w id farm body Hfarm Hf Hp). simpl.
  unfold FarmApp.GET_product, Express.handle, FarmApp.wrapAsync,
    FarmApp.get_product, Product_findById_populate_farm, Product_findById,
    Farm_findById.
  run. rewrite lookup_insert_eq. simpl. by rewrite lookup_insert_eq.
Qed.

(** ** Creating a farm *)

(** X27.  POST /farms with fields that fail the schema: the handler is not
    wrapped, so that the [ValidationError] of [save] is a rejected promise
    that nothing catches; no response is written and nothing is stored. *)
Theorem create_farm_invalid_unanswered (w : World) (body : FarmFields) :
  farmSchema (farmOfFields body) ≠ [] →
  FarmApp.POST_farms body w =
    (logged (FarmSave (newObjectId w)) w,
     ResNone (ValidationError "Farm" (farmSchema (farmOfFields body)))).
Proof.
  intros Hinvalid.
  unfold FarmApp.POST_farms, Express.handle, FarmApp.post_farms, Farm_new, Farm_save.
  run. change (farmSchema _) with (farmSchema (farmOfFields body)).
  by destruct (farmSchema (farmOfFields body)).
Qed.

End FarmRoutes.

(** ** More on the list, the update and the two writes *)

(** X12.  GET /products?category= with an empty category, in both
    applications: the empty string is falsy, so that every product is listed
    under the label "All", as without the argument. *)
Theorem empty_category_lists_all {R : Runtime} (w : World) :
  lists_exactly w None "All" (λ _, True) (ProductsApp.GET_products (Some "") w) ∧
  lists_exactly w None "All" (λ _, True) (FarmApp.GET_products (Some "") w).
Proof.
  assert (Hall : lists_exactly w None "All" (λ _, True)
    (logged (ProductFind None) w,
     ResRender "products/index" (IndexLocals (map_to_list (productColl w)) "All"))).
  { eexists. split; [reflexivity|]. split; [apply NoDup_map_to_list|].
    intros id p. rewrite find_all_complete. tauto. }
  split; exact Hall.
Qed.

Section TwoWrites.
Context {R : Runtime}.

(** X13.  PUT /products/:id with valid fields on a product that exists, in
    both applications: the answer is the redirect to the product's detail
    path, and the stored product has every field that the body gives and
    keeps every field that the body leaves out. *)
Theorem update_valid_sets_fields
    (w : World) (id : ObjectId) (p : Product) (body : Fields) :
  productUpdateSchema body = [] →
  productColl w !! id = Some p →
  ∃ w' p',
    ProductsApp.PUT_product id body w = (w', ResRedirect ("/products/" +:+ id)) ∧
    FarmApp.PUT_product id body w = (w', ResRedirect ("/products/" +:+ id)) ∧
    productColl w' !! id = Some p' ∧
    p_name p' = (if name body is Some _ then name body else p_name p) ∧
    p_price p' = (if price body is Some _ then price body else p_price p) ∧
    p_category p' = (if category body is Some _ then category body else p_category p).
Proof.
  intros Hvalid Hfound.
  destruct (update_product_persists w id p body Hvalid Hfound) as (HP & HF & Hp').
  eexists _, (setFields body p).
  split; [exact HP|]. split; [exact HF|]. split; [exact Hp'|]. done.
Qed.

(** X21.  POST /farms/:id/products on a farm that exists, when the farm and
    the fields satisfy their schemas: the answer is the redirect to the farm,
    after exactly three calls in this order: the lookup of the farm, the save
    of the farm, the save of the product. *)
Theorem add_product_valid_calls
    (w : World) (id : ObjectId) (farm : Farm) (body : Fields) :
  farmColl w !! id = Some farm →
  farmSchema farm = [] →
  productSchema (productOfFields body) = [] →
  ∃ w', FarmApp.POST_farm_products id body w = (w', ResRedirect ("/farms/" +:+ id)) ∧
        odmLog w' = odmLog w ++ [FarmFindById id; FarmSave id;
                                 ProductSave (newObjectId w)].
Proof.
  intros Hfarm Hf Hp. eexists. split.
  - apply (POST_farm_products_valid_run w id farm body Hfarm Hf Hp).
  - simpl. by rewrite <- !app_assoc.
Qed.

(** X22.  The two writes of POST /farms/:id/products are not atomic: when the
    farm exists and satisfies its schema but the fields fail the Product
    schema, the farm is saved with the identifier of the new product in its
    [products] while no product is stored under that identifier, and the
    answer is 500. *)
Theorem add_product_invalid_dangling
    (w : World) (id : ObjectId) (farm : Farm) (body : Fields) :
  farmColl w !! id = Some farm →
  farmSchema farm = [] →
  productSchema (productOfFields body) ≠ [] →
  ∃ w' farm',
    FarmApp.POST_farm_products id body w =
      (w', ResSend 500 (referenceErrorMessage "AppError")) ∧
    farmColl w' !! id = Some farm' ∧
    newObjectId w ∈ f_products farm' ∧
    productColl w' !! newObjectId w = None ∧
    (Product_findById (newObjectId w) w').2 = Return None.
Proof.
  intros Hfarm Hf Hp.
  destruct (add_product_invalid_fields w id farm body Hfarm Hf Hp)
    as (w' & Hrun & Hnone & farm' & Hfarm' & Hproducts).
  exists w', farm'. split; [exact Hrun|]. split; [exact Hfarm'|]. split.
  - rewrite Hproducts. apply elem_of_app. right. by apply list_elem_of_singleton.
  - split; [exact Hnone|]. unfold Product_findById. run. by rewrite Hnone.
Qed.
End TwoWrites.

Lemma update_valid_sets_fields_witness :
  ∃ w' p',
    ProductsApp.PUT_product (R := node_runtime) apple_id kiwi stand =
      (w', ResRedirect ("/products/" +:+ apple_id)) ∧
    FarmApp.PUT_product (R := node_runtime) apple_id kiwi stand =
      (w', ResRedirect ("/products/" +:+ apple_id)) ∧
    productColl w' !! apple_id = Some p' ∧
    p_name p' = (if name kiwi is Some _ then name kiwi else p_name apple) ∧
    p_price p' = (if price kiwi is Some _ then price kiwi else p_price apple) ∧
    p_category p' =
      (if category kiwi is Some _ then category kiwi else p_category apple).
Proof.
  apply (update_valid_sets_fields (R := node_runtime) stand apple_id apple kiwi);
    reflexivity.
Defined.

Lemma add_product_valid_calls_witness :
  ∃ w', FarmApp.POST_farm_products (R := node_runtime) orchard_id kiwi stand =
          (w', ResRedirect ("/farms/" +:+ orchard_id)) ∧
        odmLog w' = odmLog stand ++ [FarmFindById orchard_id; FarmSave orchard_id;
                                     ProductSave (newObjectId stand)].
Proof.
  apply (add_product_valid_calls (R := node_runtime) stand orchard_id orchard kiwi);
    reflexivity.
Defined.

Lemma add_product_invalid_dangling_witness :
  ∃ w' farm',
    FarmApp.POST_farm_products (R := node_runtime) orchard_id unnamed stand =
      (w', ResSend 500 "AppError is not defined") ∧
    farmColl w' !! orchard_id = Some farm' ∧
    newObjectId stand ∈ f_products farm' ∧
    productColl w' !! newObjectId stand = None ∧
    (Product_findById (newObjectId stand) w').2 = Return None.
Proof.
  apply (add_product_invalid_dangling (R := node_runtime) stand orchard_id orchard unnamed).
  - reflexivity.
  - reflexivity.
  - vm_compute. discriminate.
Defined.

Lemma delete_missing_farm_unanswered_witness :
  ∃ w', FarmApp.DELETE_farm (R := node_runtime) no_farm_id stand =
          (w', ResNone (TypeError_null (R := node_runtime) "products")) ∧
        same_collections stand w' ∧
        odmLog w' = odmLog stand ++ [FarmFindByIdAndDelete no_farm_id].
Proof.
  apply (delete_missing_farm_unanswered (R := node_runtime) stand no_farm_id).
  reflexivity.
Defined.

Lemma delete_farm_frame_witness :
  (∀ pid : ObjectId,
     productColl (FarmApp.DELETE_farm (R := node_runtime) orchard_id stand).1 !! pid =
       if decide (pid ∈ f_products orchard) then None else productColl stand !! pid) ∧
  (∀ fid : ObjectId, fid ≠ orchard_id →
     farmColl (FarmApp.DELETE_farm (R := node_runtime) orchard_id stand).1 !! fid =
       farmColl stand !! fid).
Proof.
  apply (delete_farm_frame (R := node_runtime) stand orchard_id orchard). reflexivity.
Defined.

Lemma delete_farm_one_bulk_delete_witness :
  odmLog (FarmApp.DELETE_farm (R := node_runtime) orchard_id stand).1 =
    odmLog stand ++ [FarmFindByIdAndDelete orchard_id;
                     ProductDeleteMany (f_products orchard)].
Proof.
  apply (delete_farm_one_bulk_delete (R := node_runtime) stand orchard_id orchard).
  - reflexivity.
  - discriminate.
Defined.

Lemma add_then_delete_farm_witness :
  ∃ w', FarmApp.DELETE_farm (R := node_runtime) orchard_id
          (FarmApp.POST_farm_products (R := node_runtime) orchard_id kiwi stand).1 =
          (w', ResRedirect "/farms") ∧
        farmColl w' !! orchard_id = None ∧
        productColl w' !! newObjectId stand = None.
Proof.
  apply (add_then_delete_farm (R := node_runtime) stand orchard_id orchard kiwi);
    reflexivity.
Defined.

Lemma add_then_detail_witness :
  (FarmApp.GET_product (R := node_runtime) (newObjectId stand)
     (FarmApp.POST_farm_products (R := node_runtime) orchard_id kiwi stand).1).2 =
    ResRender "products/details"
      (DetailsPopulatedLocals
         (Some ((newObjectId stand,
                 {| p_name := name kiwi; p_price := price kiwi;
                    p_category := category kiwi; p_farm := Some orchard_id |}),
                Some (orchard_id, f_name orchard)))).
Proof.
  apply (add_then_detail (R := node_runtime) stand orchard_id orchard kiwi);
    reflexivity.
Defined.

Lemma create_farm_invalid_unanswered_witness :
  FarmApp.POST_farms (R := node_runtime) no_city stand =
    (logged (FarmSave (newObjectId stand)) stand,
     ResNone (ValidationError (R := node_runtime) "Farm"
                (farmSchema (farmOfFields no_city)))).
Proof.
  apply (create_farm_invalid_unanswered (R := node_runtime) stand no_city).
  vm_compute. discriminate.
Defined.

